(** * fplpicker: points estimator, enrichment, squad optimiser and listing

    A shallow embedding of [fplpicker.py].  Python floats are binary64, so the
    estimator is written over Rocq's primitive floats and computes bit for bit
    what the script computes.  The integer program handed to PuLP is read over
    the rationals: a finite binary64 cell stands for the rational it denotes.
    The solver itself is not part of the script: it enters as a contract,
    exact ([LP.exact]) or to within a feasibility tolerance
    ([Tolerance.tolerant]), that the statements name where they rest on it. *)

From Stdlib Require Import Bool List String Ascii ZArith QArith.
From Stdlib Require Import PrimFloat FloatOps SpecFloat.
From Stdlib Require Import Lia Lqa Permutation Sorted.
Import ListNotations.

Set Warnings "-inexact-float".
Local Open Scope string_scope.
Local Open Scope list_scope.

(** ** Python values used by the script *)

Module Py.

(** A [string] holds the code points of a Python [str], one per character,
    all below 256; text with higher code points is outside the model. *)

(** The code points below 256 for which [str.isspace] holds: 9-13, 28-32,
    next line (133) and no-break space (160). *)
Definition isspace (c : ascii) : bool :=
  let n := nat_of_ascii c in
  ((9 <=? n)%nat && (n <=? 13)%nat) || ((28 <=? n)%nat && (n <=? 32)%nat)
  || (n =? 133)%nat || (n =? 160)%nat.

Fixpoint lstrip (l : list ascii) : list ascii :=
  match l with
  | [] => []
  | c :: t => if isspace c then lstrip t else l
  end.

(** [s.strip()] *)
Definition strip (s : string) : string :=
  string_of_list_ascii
    (rev (lstrip (rev (lstrip (list_ascii_of_string s))))).

(** [a or b] on strings: the empty string is falsy. *)
Definition or_ (a b : string) : string :=
  match a with
  | EmptyString => b
  | _ => a
  end.

(** A dict literal with string keys, in insertion order. *)
Definition dict (V : Type) : Type := list (string * V).

(** [d[k]]; [None] stands for [KeyError]. *)
Fixpoint item {V : Type} (d : dict V) (k : string) : option V :=
  match d with
  | [] => None
  | (k', v) :: t => if k' =? k then Some v else item t k
  end.

(** [d.get(k, default)] *)
Definition get {V : Type} (d : dict V) (k : string) (default : V) : V :=
  match item d k with
  | Some v => v
  | None => default
  end.

End Py.

(** ** Configuration *)

Definition SEASON : string := "2025/2026".

Definition LEAGUE_DIFFICULTY : Py.dict float :=
  [ ("Premier League", 90.6); ("La Liga", 84.8); ("Serie A", 84.8);
    ("Bundesliga", 84.2); ("Ligue 1", 84.3); ("Eredivisie", 77.2);
    ("Primeira Liga", 78.8); ("Belgian Pro League", 80.0);
    ("Championship", 79.5); ("Scottish Premiership", 74.0);
    ("Brazil Serie A", 80.8); ("MLS", 74.8); ("Argentine Primera", 77.5);
    ("Russian Premier League", 75.0); ("Turkish Super Lig", 75.0);
    ("Austrian Bundesliga", 75.0); ("Swiss Super League", 75.7);
    ("Mexican Liga MX", 73.5); ("Japanese J1 League", 70.0) ]%float.

(** [PL_BASE = LEAGUE_DIFFICULTY["Premier League"]], evaluated at import. *)
Definition PL_BASE : float :=
  match Py.item LEAGUE_DIFFICULTY "Premier League" with
  | Some v => v
  | None => nan
  end.

(** ** Points estimator *)

Module Estimator.

(** The two module globals [weight_stats] reads. *)
Record globals : Type := mkGlobals {
  g_LEAGUE_DIFFICULTY : Py.dict float;
  g_PL_BASE : float
}.

Definition module_globals : globals :=
  mkGlobals LEAGUE_DIFFICULTY PL_BASE.

Definition weight_stats_in (G : globals) (goals assists : float)
    (league : string) : float * float :=
  let rating := Py.get (g_LEAGUE_DIFFICULTY G) league (g_PL_BASE G) in
  let factor := (rating / g_PL_BASE G)%float in
  ((goals * factor)%float, (assists * factor)%float).

Definition weight_stats (goals assists : float) (league : string)
    : float * float :=
  weight_stats_in module_globals goals assists league.

Definition estimate_fpl_pts (goals assists : float) (pos : string) : float :=
  let gp :=
    if pos =? "GK" then 10%float
    else if pos =? "DEF" then 6%float
    else if pos =? "MID" then 5%float
    else 4%float in
  (goals * gp + assists * 3)%float.

End Estimator.

(** ** Enrichment from external statistics *)

Module Enrichment.

(** What a scraper returns.  Numeric cells are held as the binary64 value
    that [*] in [weight_stats] works on; an integer count converts without
    rounding. *)
Record stats : Type := mkStats {
  st_league : string;
  st_goals : float;
  st_assists : float;
  st_minutes : float
}.

(** A row of the cache frame, and the dict [get_external*] returns.  The
    league is text: a cache file with an empty league cell, which
    [read_csv] loads as a missing value, is outside the model. *)
Record record : Type := mkRecord {
  fpl_name : string;
  source_name : string;
  league : string;
  season : string;
  goals : float;
  assists : float;
  minutes : float;
  notes : string
}.

Definition cache : Type := list record.

(** The columns of an FPL element row the script touches.  [ext_league] is
    [None] when the column is absent or holds a missing value.  [pos] is
    whatever [pos_map] gave: a missing position compares unequal to each of
    the four codes, as any other string does. *)
Record row : Type := mkRow {
  name : string;
  web_name : string;
  pos : string;
  team : string;
  cost : float;
  total_points : float;
  estimated_points : option float;
  ext_league : option string
}.

(** The cache file on disk: [None] when it does not exist. *)
Definition file : Type := option cache.

Definition load_cache (f : file) : cache :=
  match f with
  | Some c => c
  | None => []
  end.

Definition save_cache (c : cache) : file := Some c.

(** [cache[(cache.fpl_name == player_name) | (cache.source_name == web_name)]]
    followed by [iloc[0]] when the selection is not empty. *)
Definition cache_hit (c : cache) (player_name web_name_ : string)
    : option record :=
  find (fun r => (fpl_name r =? player_name) || (source_name r =? web_name_)) c.

Definition of_stats (s : stats) (player_name web_name_ src : string) : record :=
  mkRecord player_name web_name_ (st_league s) SEASON
           (st_goals s) (st_assists s) (st_minutes s) src.

Definition no_stats (player_name web_name_ : string) : record :=
  mkRecord player_name web_name_ "Unknown" SEASON 0 0 0 "none".

Section Web.

(** The two scrapers: what the sites answer for a player name. *)
Variable fetch_tm_stats : string -> option stats.
Variable fetch_fbref_stats : string -> option stats.

Definition sources : list (string * (string -> option stats)) :=
  [ ("Transfermarkt", fetch_tm_stats); ("FBref", fetch_fbref_stats) ].

(** The [for src, fn in ...] loop: the first source with an answer. *)
Fixpoint first_source (l : list (string * (string -> option stats)))
    (player_name web_name_ : string) : option record :=
  match l with
  | [] => None
  | (src, fn) :: t =>
      match fn player_name with
      | Some s => Some (of_stats s player_name web_name_ src)
      | None => first_source t player_name web_name_
      end
  end.

(** A fresh lookup: what is returned when the cache has no row.  The
    [[lookup]] lines printed on the way are left out. *)
Definition scrape (player_name web_name_ : string) : record :=
  match first_source sources player_name web_name_ with
  | Some rec => rec
  | None => no_stats player_name web_name_
  end.

(** [get_external]: returns the record, the cache frame after the call
    and the file after the call. *)
Definition get_external (player_name web_name_ : string) (c : cache)
    (f : file) : record * cache * file :=
  match cache_hit c player_name web_name_ with
  | Some r => (r, c, f)
  | None =>
      let rec := scrape player_name web_name_ in
      let c' := c ++ [rec] in
      (rec, c', save_cache c')
  end.

Definition get_external_no_cache_update (player_name web_name_ : string)
    (c : cache) : record :=
  match cache_hit c player_name web_name_ with
  | Some r => r
  | None => scrape player_name web_name_
  end.

Definition lookup_name (r : row) : string :=
  Py.or_ (Py.strip (name r)) (Py.strip (web_name r)).

Definition enrich_single (r : row) (c : cache) : row :=
  match ext_league r with
  | None =>
      let pname := lookup_name r in
      let rec := get_external_no_cache_update pname (web_name r) c in
      let '(gw, aw) :=
        Estimator.weight_stats (goals rec) (assists rec) (league rec) in
      let est := Estimator.estimate_fpl_pts gw aw (pos r) in
      mkRow (name r) (web_name r) (pos r) (team r) (cost r)
            est (Some est) (Some (league rec))
  | Some _ => r
  end.

(** The records the run obtained from the sites rather than the cache. *)
Definition looked_up (r : row) (c : cache) : option record :=
  match ext_league r with
  | None =>
      match cache_hit c (lookup_name r) (web_name r) with
      | Some _ => None
      | None => Some (scrape (lookup_name r) (web_name r))
      end
  | Some _ => None
  end.

(** [enrich]: the workers only read [cache], and results are collected
    in submission order, so the pool is a map over the rows.  Returns
    the frame and the cache file after the final [save_cache]. *)
Definition enrich (f : file) (players : list row) : list row * file :=
  let c := load_cache f in
  let enriched_rows := map (fun r => enrich_single r c) players in
  let new_records : list record := [] in
  let c' := fold_left (fun acc r => acc ++ [r]) new_records c in
  (enriched_rows, save_cache c').

End Web.

End Enrichment.

(** ** Numeric cells read exactly *)

(** The rational a binary64 value denotes.  Infinities and NaN denote no
    rational and are read as 0 here; [read] below tells them apart. *)
Definition Qval (f : float) : Q :=
  match Prim2SF f with
  | S754_finite s m e =>
      Qred (inject_Z (if s then Zneg m else Zpos m) * Qpower 2 e)
  | _ => 0
  end.

Definition Qlt_bool (a b : Q) : bool := negb (Qle_bool b a).

(** A float cell as pandas orders it: a missing value (NaN), an infinity
    or a number. *)
Inductive cell : Type :=
| Missing
| MinusInfinity
| Number (q : Q)
| PlusInfinity.

Definition read (f : float) : cell :=
  match Prim2SF f with
  | S754_nan => Missing
  | S754_infinity true => MinusInfinity
  | S754_infinity false => PlusInfinity
  | _ => Number (Qval f)
  end.

Definition is_finite (f : float) : bool :=
  match read f with
  | Number _ => true
  | _ => false
  end.

(** ** The part of PuLP the script uses *)

Module LP.

Inductive sense : Type :=
| LpConstraintLE
| LpConstraintGE
| LpConstraintEQ.

(** An affine expression over binary variables, named by frame index:
    [lpSum] of coefficient-variable products. *)
Definition expr : Type := list (nat * Q).

Record constraint : Type := mkConstraint {
  c_lhs : expr;
  c_sense : sense;
  c_rhs : Q
}.

(** An [LpProblem] with sense [LpMaximize]. *)
Record problem : Type := mkProblem {
  objective : expr;
  constraints : list constraint
}.

Inductive status : Type :=
| LpStatusNotSolved
| LpStatusOptimal
| LpStatusInfeasible
| LpStatusUnbounded
| LpStatusUndefined.

(** The table [pulp.LpStatus]. *)
Definition LpStatus (s : status) : string :=
  match s with
  | LpStatusNotSolved => "Not Solved"
  | LpStatusOptimal => "Optimal"
  | LpStatusInfeasible => "Infeasible"
  | LpStatusUnbounded => "Unbounded"
  | LpStatusUndefined => "Undefined"
  end.

(** What [prob.solve()] leaves behind: [prob.status] and each variable's
    [varValue], which is [None] until a solver assigns it. *)
Record solution : Type := mkSolution {
  sol_status : status;
  varValue : nat -> option Q
}.

Definition assignment : Type := nat -> bool.

Fixpoint value (x : assignment) (e : expr) : Q :=
  match e with
  | [] => 0
  | (i, c) :: t => (if x i then c else 0) + value x t
  end.

Definition holds (x : assignment) (c : constraint) : bool :=
  match c_sense c with
  | LpConstraintLE => Qle_bool (value x (c_lhs c)) (c_rhs c)
  | LpConstraintGE => Qle_bool (c_rhs c) (value x (c_lhs c))
  | LpConstraintEQ => Qeq_bool (value x (c_lhs c)) (c_rhs c)
  end.

Definition feasible (x : assignment) (p : problem) : bool :=
  forallb (holds x) (constraints p).

Definition variables (p : problem) : list nat :=
  nodup Nat.eq_dec
    (map fst (objective p)
     ++ flat_map (fun c => map fst (c_lhs c)) (constraints p)).

(** The 0/1 reading of a solution that the script takes:
    [var.varValue > 0.5]. *)
Definition rounded (s : solution) : assignment :=
  fun i =>
    match varValue s i with
    | Some v => Qlt_bool (1 # 2) v
    | None => false
    end.

(** The contract of an exact integer-programming back end: when it
    reports [Optimal], every variable has a value, and the values round to
    a feasible assignment that no feasible assignment beats. *)
Definition exact (solve : problem -> solution) : Prop :=
  forall p,
    sol_status (solve p) = LpStatusOptimal ->
    (forall i, In i (variables p) -> varValue (solve p) i <> None)
    /\ feasible (rounded (solve p)) p = true
    /\ (forall x, feasible x p = true ->
          value x (objective p) <= value (rounded (solve p)) (objective p)).

(** *** A reference back end: exhaustive search *)

Fixpoint subsets (vars : list nat) : list (list nat) :=
  match vars with
  | [] => [[]]
  | v :: t => let r := subsets t in r ++ map (cons v) r
  end.

Definition chosen (s : list nat) : assignment :=
  fun i => existsb (Nat.eqb i) s.

Fixpoint best (p : problem) (cands : list (list nat))
    (acc : option (list nat)) : option (list nat) :=
  match cands with
  | [] => acc
  | s :: t =>
      let acc' :=
        if feasible (chosen s) p then
          match acc with
          | None => Some s
          | Some b =>
              if Qlt_bool (value (chosen b) (objective p))
                          (value (chosen s) (objective p))
              then Some s else acc
          end
        else acc in
      best p t acc'
  end.

Definition search (p : problem) : solution :=
  match best p (subsets (variables p)) None with
  | Some s =>
      mkSolution LpStatusOptimal
                 (fun i => Some (if chosen s i then 1 else 0))
  | None => mkSolution LpStatusInfeasible (fun _ => Some 0)
  end.

End LP.

(** ** Squad optimiser *)

Definition BUDGET : float := 100.0.
Definition SQUAD_STRUCTURE : Py.dict Z :=
  [ ("GK", 2%Z); ("DEF", 5%Z); ("MID", 5%Z); ("FWD", 3%Z) ].
Definition MAX_PER_TEAM : Z := 3.

Module Optimizer.

Import Enrichment.

(** The frame reaching [optimize_squad] carries the labels 0, 1, ... of
    the frame it was built from, so a label is a position. *)
Definition frame : Type := list row.

Fixpoint items_from (k : nat) (players : frame) : list (nat * row) :=
  match players with
  | [] => []
  | r :: t => (k, r) :: items_from (S k) t
  end.

(** [players.index] paired with the rows. *)
Definition items (players : frame) : list (nat * row) :=
  items_from 0 players.

(** [players[mask].index] *)
Definition index_where (mask : row -> bool) (players : frame) : list nat :=
  map fst (filter (fun ir => mask (snd ir)) (items players)).

(** [lpSum(players.loc[idx, col] * var for idx, var in player_vars.items())] *)
Definition weighted (col : row -> float) (players : frame) : LP.expr :=
  map (fun ir => (fst ir, Qval (col (snd ir)))) (items players).

(** [lpSum(player_vars[idx] for idx in players[mask].index)] *)
Definition counted (mask : row -> bool) (players : frame) : LP.expr :=
  map (fun i => (i, 1)) (index_where mask players).

(** [Series.unique()]: distinct values in order of first appearance. *)
Fixpoint unique_from (seen l : list string) : list string :=
  match l with
  | [] => []
  | x :: t =>
      if existsb (String.eqb x) seen then unique_from seen t
      else x :: unique_from (x :: seen) t
  end.

Definition unique (l : list string) : list string := unique_from [] l.

Definition position_constraint (players : frame) (pc : string * Z)
    : LP.constraint :=
  LP.mkConstraint (counted (fun r => pos r =? fst pc) players)
                  LP.LpConstraintEQ (inject_Z (snd pc)).

Definition team_constraint (players : frame) (t : string) : LP.constraint :=
  LP.mkConstraint (counted (fun r => team r =? t) players)
                  LP.LpConstraintLE (inject_Z MAX_PER_TEAM).

(** The problem as assembled by lines 290-311. *)
Definition build (players : frame) : LP.problem :=
  LP.mkProblem
    (weighted total_points players)
    ([ LP.mkConstraint (weighted cost players) LP.LpConstraintLE
                       (Qval BUDGET);
       LP.mkConstraint (weighted cost players) LP.LpConstraintGE
                       (Qval (BUDGET * 0.99)%float) ]
     ++ map (position_constraint players) SQUAD_STRUCTURE
     ++ map (team_constraint players) (unique (map team players))).

Inductive event : Type :=
| Solved (p : LP.problem)
| Printed (line : string).

Inductive exn : Type :=
| TypeError.

Inductive result : Type :=
| Return (squad : frame)
| Raise (e : exn).

(** [[idx for idx, var in player_vars.items() if var.varValue > 0.5]];
    comparing [None] with a float raises [TypeError]. *)
Fixpoint selected (s : LP.solution) (idxs : list nat) : option (list nat) :=
  match idxs with
  | [] => Some []
  | i :: t =>
      match LP.varValue s i with
      | None => None
      | Some v =>
          match selected s t with
          | None => None
          | Some l => Some (if Qlt_bool (1 # 2) v then i :: l else l)
          end
      end
  end.

(** [players.loc[selected_idx]]; every label taken from the frame is
    present, so the lookup cannot miss. *)
Definition loc (players : frame) (idxs : list nat) : frame :=
  flat_map (fun i => match nth_error players i with
                     | Some r => [r]
                     | None => []
                     end) idxs.

(** [optimize_squad], with what it does to the outside: the solver call
    and the lines it prints. *)
Definition optimize_squad (solve : LP.problem -> LP.solution)
    (players : frame) : list event * result :=
  let prob := build players in
  let sol := solve prob in
  let warning :=
    match LP.sol_status sol with
    | LP.LpStatusOptimal => []
    | st => [Printed ("Warning: Solver status: " ++ LP.LpStatus st)]
    end in
  (Solved prob :: warning,
   match selected sol (map fst (items players)) with
   | Some selected_idx => Return (loc players selected_idx)
   | None => Raise TypeError
   end).

(** *** The constraints, stated on a squad *)

Definition count_pos (p : string) (squad : frame) : Z :=
  Z.of_nat (List.length (filter (fun r => pos r =? p) squad)).

Definition count_team (t : string) (squad : frame) : Z :=
  Z.of_nat (List.length (filter (fun r => team r =? t) squad)).

Fixpoint total (col : row -> float) (squad : frame) : Q :=
  match squad with
  | [] => 0
  | r :: t => Qval (col r) + total col t
  end.

Definition required_size : Z :=
  fold_right (fun pc acc => (snd pc + acc)%Z) 0%Z SQUAD_STRUCTURE.

Definition within_budget (squad : frame) : Prop :=
  total cost squad <= Qval BUDGET
  /\ Qval (BUDGET * 0.99)%float <= total cost squad.

Definition meets_structure (squad : frame) : Prop :=
  forall p n, In (p, n) SQUAD_STRUCTURE -> count_pos p squad = n.

Definition within_team_cap (squad : frame) : Prop :=
  forall t, (count_team t squad <= MAX_PER_TEAM)%Z.

Definition valid_squad (squad : frame) : Prop :=
  within_budget squad /\ meets_structure squad /\ within_team_cap squad.

(** The rows of [players] picked by a 0/1 assignment, in frame order. *)
Definition pick (x : LP.assignment) (players : frame) : frame :=
  map snd (filter (fun ir => x (fst ir)) (items players)).

Definition is_role (p : string) : bool :=
  existsb (fun pc => fst pc =? p) SQUAD_STRUCTURE.

End Optimizer.

(** ** Presentation *)

Module Presentation.

Import Enrichment.

Definition pos_order : Py.dict nat :=
  [ ("GK", 0%nat); ("DEF", 1%nat); ("MID", 2%nat); ("FWD", 3%nat) ].

(** The sort keys of a row: [squad["pos"].map(pos_order)], missing for a
    position outside the table, and [total_points]. *)
Definition keys (r : row) : option nat * cell :=
  (Py.item pos_order (pos r), read (total_points r)).

(** Ascending on the first key with missing values last. *)
Definition key1_le (a b : option nat) : bool :=
  match a, b with
  | Some m, Some n => (m <=? n)%nat
  | Some _, None => true
  | None, Some _ => false
  | None, None => true
  end.

Definition key1_eq (a b : option nat) : bool :=
  key1_le a b && key1_le b a.

(** Descending on the second key with missing values last: plus
    infinity first, then the numbers from high to low, minus infinity,
    and NaN at the end. *)
Definition key2_ge (a b : cell) : bool :=
  match a, b with
  | _, Missing => true
  | Missing, _ => false
  | PlusInfinity, _ => true
  | _, PlusInfinity => false
  | _, MinusInfinity => true
  | MinusInfinity, Number _ => false
  | Number p, Number q => Qle_bool q p
  end.

(** [by=["pos_order", "total_points"], ascending=[True, False]] *)
Definition before (a b : row) : bool :=
  let '(pa, ta) := keys a in
  let '(pb, tb) := keys b in
  if key1_eq pa pb then key2_ge ta tb else key1_le pa pb.

Fixpoint insert (r : row) (l : list row) : list row :=
  match l with
  | [] => [r]
  | h :: t => if before r h then r :: l else h :: insert r t
  end.

(** [sort_values] on several columns is a stable sort. *)
Fixpoint sort_values (l : list row) : list row :=
  match l with
  | [] => []
  | r :: t => insert r (sort_values t)
  end.

(** Lines 334-340: the rows as printed. *)
Definition listing (squad : list row) : list row := sort_values squad.

Definition in_order (a b : row) : Prop := before a b = true.

End Presentation.

(** ** The estimator as the specification words it *)

Module Spec.

Inductive role : Type :=
| Goalkeeper
| Defender
| Midfielder
| Forward.

(** The position codes of [pos_map]. *)
Definition code (r : role) : string :=
  match r with
  | Goalkeeper => "GK"
  | Defender => "DEF"
  | Midfielder => "MID"
  | Forward => "FWD"
  end.

Definition goal_weight (r : role) : float :=
  match r with
  | Goalkeeper => 10
  | Defender => 6
  | Midfielder => 5
  | Forward => 4
  end%float.

Definition referenceStrength : float := 90.6.

(** [leagueStrength(league) / referenceStrength], and 1.0 for a league
    that is not in the table. *)
Definition factor (league : string) : float :=
  match Py.item LEAGUE_DIFFICULTY league with
  | Some strength => (strength / referenceStrength)%float
  | None => 1%float
  end.

Definition points (goals assists : float) (league : string) (r : role)
    : float :=
  let weighted_goals := (goals * factor league)%float in
  let weighted_assists := (assists * factor league)%float in
  (weighted_goals * goal_weight r + weighted_assists * 3)%float.

(** The fixed role order of the listing; any other position comes after
    the four roles. *)
Definition role_rank (p : string) : nat :=
  if p =? "GK" then 0
  else if p =? "DEF" then 1
  else if p =? "MID" then 2
  else if p =? "FWD" then 3
  else 4.

(** Points [a] are not lower than points [b]; missing points (NaN) are
    lower than any. *)
Definition not_lower (a b : cell) : Prop :=
  match a, b with
  | _, Missing => True
  | Missing, _ => False
  | PlusInfinity, _ => True
  | _, PlusInfinity => False
  | _, MinusInfinity => True
  | MinusInfinity, Number _ => False
  | Number p, Number q => q <= p
  end.

(** [a] may be printed above [b]: its role does not come later, and when
    both hold the same position its projected points are not lower. *)
Definition listed_before (a b : Enrichment.row) : Prop :=
  (role_rank (Enrichment.pos a) <= role_rank (Enrichment.pos b))%nat
  /\ (Enrichment.pos a = Enrichment.pos b ->
      not_lower (read (Enrichment.total_points a))
                (read (Enrichment.total_points b))).

End Spec.

(** ** Sample data *)

Module Sample.

Import Enrichment.

Definition player (n p t : string) (c pts : float) : row :=
  mkRow n n p t c pts None None.

(** Fifteen rows that fill the squad structure at a cost of 99.5. *)
Definition fifteen : list row :=
  [ player "g1" "GK" "A" 4.5 50; player "g2" "GK" "B" 5.0 60;
    player "d1" "DEF" "A" 5.5 70; player "d2" "DEF" "B" 5.5 71;
    player "d3" "DEF" "C" 5.5 72; player "d4" "DEF" "D" 5.5 73;
    player "d5" "DEF" "E" 5.5 74;
    player "m1" "MID" "A" 8.0 90; player "m2" "MID" "B" 8.0 91;
    player "m3" "MID" "C" 8.0 92; player "m4" "MID" "D" 8.0 93;
    player "m5" "MID" "E" 8.0 94;
    player "f1" "FWD" "C" 7.5 80; player "f2" "FWD" "D" 7.5 81;
    player "f3" "FWD" "E" 7.5 82 ]%float.

(** A row whose position is none of the four codes, as [fetch_fpl_data]
    produces for an element type outside [pos_map]. *)
Definition manager : row := player "am" "AM" "F" 0.5 10.

Definition sixteen : list row := fifteen ++ [manager].

Definition lone_keeper : list row := [ player "g1" "GK" "A" 4.5 50 ].

(** A record with a negative cost and an unknown position. *)
Definition malformed : list row := [ player "zz" "XX" "A" (-1.0) 5 ].

(** Transfermarkt knows one player; FBref knows nobody. *)
Definition tm (n : string) : option stats :=
  if n =? "Joao Pedro"
  then Some (mkStats "Brazil Serie A" 10 5 2000)
  else None.

Definition fbref (_ : string) : option stats := None.

Definition signing : row :=
  mkRow " Joao Pedro " "J.Pedro" "FWD" "Chelsea" 7.5 0 None None.

Definition cached : record :=
  mkRecord "Joao Pedro" "J.Pedro" "La Liga" SEASON 4 2 900 "Transfermarkt".

Definition unsorted : list row :=
  [ player "f1" "FWD" "C" 7.5 80; player "g1" "GK" "A" 4.5 50;
    player "m1" "MID" "A" 8.0 90; player "g2" "GK" "B" 5.0 60;
    player "d1" "DEF" "A" 5.5 70 ]%float.

End Sample.

(** ** Requests with retries *)

Module Http.

Record response : Type := mkResponse {
  status_code : Z;
  text : string
}.

(** One call of [requests.get]: it raises, or it answers. *)
Inductive attempt : Type :=
| Raised
| Answered (resp : response).

(** What the successive calls of one [try_request] meet: the outcome of
    the call made in iteration [i]. *)
Definition network : Type := nat -> attempt.

(** The response the loop body returns, if any. *)
Definition accepted (a : attempt) : option response :=
  match a with
  | Answered resp => if (status_code resp =? 200)%Z then Some resp else None
  | Raised => None
  end.

(** The seconds slept after a failed iteration [i]: [1 + i * 2]. *)
Definition pause (i : nat) : Z := (1 + Z.of_nat i * 2)%Z.

(** The iterations [i, i + 1, ...] of the loop, [left] of them: the value
    returned and the arguments of the [time.sleep] calls, in order. *)
Fixpoint try_from (net : network) (i left : nat) : option response * list Z :=
  match left with
  | O => (None, [])
  | S left' =>
      match accepted (net i) with
      | Some resp => (Some resp, [])
      | None =>
          let '(result, sleeps) := try_from net (S i) left' in
          (result, pause i :: sleeps)
      end
  end.

Definition try_request (net : network) (retries : nat)
    : option response * list Z :=
  try_from net 0 retries.

Definition slept (sleeps : list Z) : Z := fold_right Z.add 0%Z sleeps.

End Http.

(** ** Reading statistics off a page *)

Module Scrape.

(** [c.isdecimal()] below 256: the ASCII digits. *)
Definition is_decimal (c : ascii) : bool :=
  let n := nat_of_ascii c in (48 <=? n)%nat && (n <=? 57)%nat.

(** [c.isdigit()] below 256: the ASCII digits and the superscripts two,
    three and one (178, 179, 185). *)
Definition is_digit (c : ascii) : bool :=
  let n := nat_of_ascii c in
  is_decimal c || (n =? 178)%nat || (n =? 179)%nat || (n =? 185)%nat.

(** [s.isdigit()] *)
Definition isdigit (s : string) : bool :=
  match list_ascii_of_string s with
  | [] => false
  | l => forallb is_digit l
  end.

(** [s.replace(".", "")] *)
Definition without_dots (s : string) : string :=
  string_of_list_ascii
    (filter (fun c => negb (Ascii.eqb c ".")) (list_ascii_of_string s)).

Definition digit_value (c : ascii) : Z := Z.of_nat (nat_of_ascii c - 48).

(** [sys.get_int_max_str_digits()]: the longest digit string [int]
    converts (CPython 3.11 and later, default setting). *)
Definition int_max_str_digits : nat := 4300.

(** [int(s)] on the strings that reach it, which are made of characters
    passing [isdigit] and of dots; [None] stands for [ValueError], raised
    on a dot, on a superscript and on more than 4300 digits. *)
Definition int (s : string) : option Z :=
  match list_ascii_of_string s with
  | [] => None
  | l =>
      if forallb is_decimal l
         && (List.length l <=? int_max_str_digits)%nat
      then Some (fold_left (fun acc c => (10 * acc + digit_value c)%Z)
                           l 0%Z)
      else None
  end.

(** [needle in hay] *)
Fixpoint contains (needle hay : string) : bool :=
  String.prefix needle hay
  || match hay with
     | EmptyString => false
     | String _ t => contains needle t
     end.

(** [l[-k]] for [1 <= k <= len(l)]. *)
Definition from_end (l : list string) (k : nat) : option string :=
  nth_error (rev l) (k - 1).

(** [int(l[-k]) if len(l) >= k else 0] *)
Definition int_from_end (l : list string) (k : nat) : option Z :=
  if (k <=? List.length l)%nat
  then match from_end l k with
       | Some c => int c
       | None => None
       end
  else Some 0%Z.

(** What a parser reads of a table row: its text, the texts of its cells
    and the text of its first link. *)
Record tr : Type := mkTr {
  tr_text : string;
  tr_cells : list string;
  tr_link : option string
}.

(** The dict a parser returns. *)
Record scraped : Type := mkScraped {
  league : string;
  goals : Z;
  assists : Z;
  minutes : Z
}.

(** *** Transfermarkt *)

Definition numeric_cells (cols : list string) : list string :=
  filter (fun c => isdigit (without_dots c)) cols.

(** The [try] block of [parse_transfermarkt] with its bare [except]. *)
Definition numbers (cols : list string) : Z * Z * Z :=
  let nums := numeric_cells cols in
  match int_from_end nums 3 with
  | None => (0, 0, 0)%Z
  | Some g =>
      match int_from_end nums 2 with
      | None => (0, 0, 0)%Z
      | Some a =>
          match int_from_end nums 1 with
          | None => (0, 0, 0)%Z
          | Some m => (g, a, m)
          end
      end
  end.

Definition row_stats (r : tr) : scraped :=
  let '(g, a, m) := numbers (tr_cells r) in
  mkScraped (match tr_link r with
             | Some l => l
             | None => "Unknown"
             end) g a m.

(** The profile page: the rows of the table of class [items] when there is
    one, and all the rows of the document. *)
Record page : Type := mkPage {
  items_table : option (list tr);
  all_rows : list tr
}.

(** [parse_transfermarkt], from the answer of [try_request] on. *)
Definition parse_transfermarkt (answer : option page) : option scraped :=
  match answer with
  | None => None
  | Some pg =>
      let rows := match items_table pg with
                  | Some rs => rs
                  | None => all_rows pg
                  end in
      match find (fun r => contains SEASON (tr_text r)) rows with
      | Some r => Some (row_stats r)
      | None => None
      end
  end.

(** *** FBref *)

(** [s.split("/")[0]] *)
Fixpoint before_slash (s : string) : string :=
  match s with
  | EmptyString => EmptyString
  | String c t =>
      if Ascii.eqb c "/" then EmptyString else String c (before_slash t)
  end.

Record table : Type := mkTable {
  tb_text : string;
  tb_rows : list tr
}.

Inductive outcome : Type :=
| Returns (s : option scraped)
| ValueError.

(** The body of the inner [if]: no [try] guards the conversions here, so
    a cell that [isdigit] accepts and [int] refuses stops the parser. *)
Definition fbref_row (r : tr) : outcome :=
  let nums := filter isdigit (tr_cells r) in
  match int_from_end nums 4 with
  | None => ValueError
  | Some g =>
      match int_from_end nums 3 with
      | None => ValueError
      | Some a => Returns (Some (mkScraped "Unknown (FBref)" g a 0))
      end
  end.

(** The two nested loops: the first row mentioning the season's first
    year, in the first table that has one among those mentioning
    "Standard". *)
Fixpoint fbref_tables (tables : list table) : outcome :=
  match tables with
  | [] => Returns None
  | tb :: rest =>
      if contains "Standard" (tb_text tb) then
        match find (fun r => contains (before_slash SEASON) (tr_text r))
                   (tb_rows tb) with
        | Some r => fbref_row r
        | None => fbref_tables rest
        end
      else fbref_tables rest
  end.

(** [parse_fbref], from the answer of [try_request] on. *)
Definition parse_fbref (answer : option (list table)) : outcome :=
  match answer with
  | None => Returns None
  | Some tables => fbref_tables tables
  end.

End Scrape.

(** ** The player feed *)

Module Feed.

(** [first_name.fillna("") + " " + second_name.fillna("")] *)
Definition full_name (first_name second_name : option string) : string :=
  let fill o := match o with Some s => s | None => "" end in
  fill first_name ++ " " ++ fill second_name.

(** The strings [strip] empties. *)
Definition blank (s : string) : bool :=
  forallb Py.isspace (list_ascii_of_string s).

(** [strip] on the characters of a string. *)
Definition strip_chars (l : list ascii) : list ascii :=
  rev (Py.lstrip (rev (Py.lstrip l))).

End Feed.

(** ** The groups of a listing *)

Module Groups.

(** The rows of a listing that hold a given position code. *)
Definition with_pos (code : string) (l : list Enrichment.row)
    : list Enrichment.row :=
  filter (fun r => Enrichment.pos r =? code) l.

(** The rows whose position is none of the four roles. *)
Definition without_role (l : list Enrichment.row) : list Enrichment.row :=
  filter (fun r => negb (Optimizer.is_role (Enrichment.pos r))) l.

End Groups.

(** ** More sample data *)

Module Sample2.

Import Enrichment.

(** Two refusals, then a page. *)
Definition flaky : Http.network :=
  fun i =>
    match i with
    | 0%nat => Http.Raised
    | 1%nat => Http.Answered (Http.mkResponse 503 "busy")
    | _ => Http.Answered (Http.mkResponse 200 "page")
    end.

Definition down : Http.network := fun _ => Http.Raised.

Definition season_row : Scrape.tr :=
  Scrape.mkTr "2025/2026 Serie A 30 12 7 2.431"
              ["2025/2026"; "Serie A"; "30"; "12"; "7"; "2.431"]
              (Some "Serie A").

Definition clean_row : Scrape.tr :=
  Scrape.mkTr "2025/2026 Serie A 30 12 7 2431"
              ["2025/2026"; "Serie A"; "30"; "12"; "7"; "2431"]
              (Some "Serie A").

Definition fbref_page : list Scrape.table :=
  [ Scrape.mkTable "Scouting report" [ clean_row ];
    Scrape.mkTable "Standard Stats"
      [ Scrape.mkTr "2024-2025" ["2024-2025"; "9"; "9"; "9"; "9"] None;
        Scrape.mkTr "2025-2026" ["2025-2026"; "31"; "14"; "6"; "20"; "2"]
                    None ] ].

(** The one-character string holding a superscript two (code point 178). *)
Definition squared : string := String (ascii_of_nat 178) EmptyString.

(** A no-break space (code point 160). *)
Definition nbsp : string := String (ascii_of_nat 160) EmptyString.

Definition unknown_player : row :=
  mkRow "Nobody Known" "Nobody" "MID" "Leeds" 4.5 120 None None.

Definition no_keeper : list row :=
  [ Sample.player "d1" "DEF" "A" 5.5 70; Sample.player "m1" "MID" "A" 8.0 90 ].

End Sample2.

(** ** A back end that works to a tolerance *)

Module Tolerance.

Import Enrichment LP Optimizer.

(** A constraint loosened by [eps] on each side it bounds. *)
Definition relax_constraint (eps : Q) (c : constraint) : list constraint :=
  match c_sense c with
  | LpConstraintLE => [ mkConstraint (c_lhs c) LpConstraintLE (c_rhs c + eps) ]
  | LpConstraintGE => [ mkConstraint (c_lhs c) LpConstraintGE (c_rhs c - eps) ]
  | LpConstraintEQ =>
      [ mkConstraint (c_lhs c) LpConstraintLE (c_rhs c + eps);
        mkConstraint (c_lhs c) LpConstraintGE (c_rhs c - eps) ]
  end.

Definition relax (eps : Q) (p : problem) : problem :=
  mkProblem (objective p) (flat_map (relax_constraint eps) (constraints p)).

Definition holds_within (eps : Q) (x : assignment) (c : constraint) : bool :=
  forallb (holds x) (relax_constraint eps c).

(** The assignment meets every constraint to within [eps]. *)
Definition feasible_within (eps : Q) (x : assignment) (p : problem) : bool :=
  feasible x (relax eps p).

(** What a floating-point back end offers when it reports [Optimal]:
    every variable has a value, and the values round to an assignment that
    meets each constraint to within its feasibility tolerance [eps].  An
    exact back end is the case [eps = 0]. *)
Definition tolerant (eps : Q) (solve : problem -> solution) : Prop :=
  forall p,
    sol_status (solve p) = LpStatusOptimal ->
    (forall i, In i (variables p) -> varValue (solve p) i <> None)
    /\ feasible_within eps (rounded (solve p)) p = true.

(** Exhaustive search on the loosened program. *)
Definition search_within (eps : Q) (p : problem) : solution :=
  search (relax eps p).

(** The cells the program is built from all hold numbers. *)
Definition finite_cells (players : frame) : Prop :=
  Forall (fun r => is_finite (cost r) = true
                   /\ is_finite (total_points r) = true) players.

(** A squad within budget to within [eps], with the structure and the
    team cap met. *)
Definition valid_within (eps : Q) (squad : frame) : Prop :=
  total cost squad <= Qval BUDGET + eps
  /\ Qval (BUDGET * 0.99)%float - eps <= total cost squad
  /\ meets_structure squad
  /\ within_team_cap squad.

End Tolerance.

(** ** Sample data for the tolerance and the cache *)

Module Sample3.

Import Enrichment.

(** One ten-millionth, of the order of a solver's feasibility tolerance. *)
Definition eps : Q := 1 # 10000000.

(** Fifteen rows that fill the squad structure, fourteen at 6.7 and one at
    6.2: 100 in decimal, a little over 100 as binary64 cells. *)
Definition overspent : list row :=
  [ Sample.player "g1" "GK" "A" 6.2 50; Sample.player "g2" "GK" "B" 6.7 60;
    Sample.player "d1" "DEF" "A" 6.7 70; Sample.player "d2" "DEF" "B" 6.7 71;
    Sample.player "d3" "DEF" "C" 6.7 72; Sample.player "d4" "DEF" "D" 6.7 73;
    Sample.player "d5" "DEF" "E" 6.7 74;
    Sample.player "m1" "MID" "A" 6.7 90; Sample.player "m2" "MID" "B" 6.7 91;
    Sample.player "m3" "MID" "C" 6.7 92; Sample.player "m4" "MID" "D" 6.7 93;
    Sample.player "m5" "MID" "E" 6.7 94;
    Sample.player "f1" "FWD" "C" 6.7 80; Sample.player "f2" "FWD" "D" 6.7 81;
    Sample.player "f3" "FWD" "E" 6.7 82 ]%float.

(** A back end that finds the program infeasible and leaves the value 1
    on every variable. *)
Definition stuck (_ : LP.problem) : LP.solution :=
  LP.mkSolution LP.LpStatusInfeasible (fun _ => Some 1).



(** Rows with missing and infinite points among the numbers. *)
Definition odd_points : list row :=
  [ Sample.player "m1" "MID" "A" 8.0 nan;
    Sample.player "m2" "MID" "B" 8.0 50;
    Sample.player "m3" "MID" "C" 8.0 infinity;
    Sample.player "m4" "MID" "D" 8.0 neg_infinity;
    Sample.player "m5" "MID" "E" 8.0 70 ]%float.

End Sample3.

(** * Properties *)

(** ** Concrete runs *)

Example strip_keeps_inner_spaces : Py.strip "  Joao  Pedro " = "Joao  Pedro".
Proof. reflexivity. Qed.

Example lookup_name_falls_back :
  Enrichment.lookup_name
    (Enrichment.mkRow "   " " J.Pedro" "FWD" "Chelsea" 7.5 0 None None)
  = "J.Pedro".
Proof. reflexivity. Qed.

Example eredivisie_midfielder :
  Estimator.estimate_fpl_pts
    (fst (Estimator.weight_stats 10 5 "Eredivisie"))
    (snd (Estimator.weight_stats 10 5 "Eredivisie")) "MID"
  = 55.386313465783672%float.
Proof. reflexivity. Qed.

Example unknown_league_keeper :
  Estimator.estimate_fpl_pts
    (fst (Estimator.weight_stats 10 5 "Atlantis"))
    (snd (Estimator.weight_stats 10 5 "Atlantis")) "GK"
  = 115%float.
Proof. reflexivity. Qed.

Example no_goals_no_points : Estimator.estimate_fpl_pts 0 0 "DEF" = 0%float.
Proof. reflexivity. Qed.

Example signing_points_from_scrape :
  Enrichment.total_points
    (Enrichment.enrich_single Sample.tm Sample.fbref Sample.signing [])
  = 49.050772626931561%float.
Proof. reflexivity. Qed.

Example unique_keeps_first_appearance :
  Optimizer.unique ["A"; "B"; "A"; "C"; "B"] = ["A"; "B"; "C"].
Proof. reflexivity. Qed.

Example exact_cell_values :
  Qval 4.5 = 9 # 2 /\ Qval BUDGET = 100 /\ Qval (BUDGET * 0.99)%float = 99.
Proof. repeat split. Qed.

Example listing_with_odd_points :
  map Enrichment.name (Presentation.listing Sample3.odd_points)
  = ["m3"; "m5"; "m2"; "m4"; "m1"].
Proof. vm_compute. reflexivity. Qed.

Example no_break_space_is_stripped :
  Py.strip (Sample2.nbsp ++ "Neto" ++ Sample2.nbsp) = "Neto"
  /\ Enrichment.lookup_name
       (Enrichment.mkRow Sample2.nbsp "P.Neto" "MID" "Chelsea" 6.5 0
          None None)
     = "P.Neto".
Proof. split; reflexivity. Qed.

Example listing_of_five :
  map Enrichment.name (Presentation.listing Sample.unsorted)
  = ["g2"; "g1"; "d1"; "m1"; "f1"].
Proof. vm_compute. reflexivity. Qed.

(** ** Rational comparisons *)

Lemma Qlt_bool_true (a b : Q) : Qlt_bool a b = true -> a < b.
Proof.
  unfold Qlt_bool. intros H. apply negb_true_iff in H.
  apply Qnot_le_lt. intros Hle. apply Qle_bool_iff in Hle. congruence.
Qed.

Lemma Qlt_bool_false (a b : Q) : Qlt_bool a b = false -> b <= a.
Proof.
  unfold Qlt_bool. intros H. apply negb_false_iff in H.
  now apply Qle_bool_iff.
Qed.

(** ** The integer program and the exhaustive back end *)

Module LPFacts.

Import LP.

Lemma value_ext (x y : assignment) (e : expr) :
  (forall i, In i (map fst e) -> x i = y i) -> value x e = value y e.
Proof.
  induction e as [|[i c] t IH]; simpl; intros H; [reflexivity|].
  rewrite (H i) by now left.
  rewrite IH; [reflexivity|]. intros j Hj. apply H. now right.
Qed.

Lemma in_variables_objective (p : problem) (i : nat) :
  In i (map fst (objective p)) -> In i (variables p).
Proof.
  intros H. unfold variables. apply nodup_In, in_or_app. now left.
Qed.

Lemma in_variables_constraint (p : problem) (c : constraint) (i : nat) :
  In c (constraints p) -> In i (map fst (c_lhs c)) -> In i (variables p).
Proof.
  intros Hc Hi. unfold variables. apply nodup_In, in_or_app. right.
  apply in_flat_map. now exists c.
Qed.

Lemma holds_ext (x y : assignment) (c : constraint) :
  (forall i, In i (map fst (c_lhs c)) -> x i = y i) ->
  holds x c = holds y c.
Proof.
  intros H. unfold holds. now rewrite (value_ext x y (c_lhs c) H).
Qed.

Lemma feasible_ext (x y : assignment) (p : problem) :
  (forall i, In i (variables p) -> x i = y i) ->
  feasible x p = feasible y p.
Proof.
  intros H. unfold feasible.
  assert (Hc : forall c, In c (constraints p) -> holds x c = holds y c).
  { intros c Hc. apply holds_ext. intros i Hi. apply H.
    now apply (in_variables_constraint p c). }
  revert Hc. generalize (constraints p) as cs.
  induction cs as [|c cs IH]; simpl; intros Hc; [reflexivity|].
  rewrite (Hc c) by now left.
  rewrite IH; [reflexivity|]. intros d Hd. apply Hc. now right.
Qed.

Lemma objective_ext (x y : assignment) (p : problem) :
  (forall i, In i (variables p) -> x i = y i) ->
  value x (objective p) = value y (objective p).
Proof.
  intros H. apply value_ext. intros i Hi. apply H.
  now apply in_variables_objective.
Qed.

Lemma subsets_complete (x : assignment) (vars : list nat) :
  In (filter x vars) (subsets vars).
Proof.
  induction vars as [|v t IH]; simpl; [now left|].
  apply in_or_app. destruct (x v).
  - right. now apply in_map.
  - now left.
Qed.

Lemma chosen_filter (x : assignment) (vars : list nat) (i : nat) :
  In i vars -> chosen (filter x vars) i = x i.
Proof.
  intros Hi. unfold chosen.
  destruct (x i) eqn:Hx.
  - apply existsb_exists. exists i. split.
    + apply filter_In. now split.
    + apply Nat.eqb_refl.
  - apply not_true_is_false. intros H.
    apply existsb_exists in H. destruct H as [j [Hj Hij]].
    apply Nat.eqb_eq in Hij. subst j.
    apply filter_In in Hj. destruct Hj as [_ Hj]. congruence.
Qed.

Section Best.

Variable p : problem.

Let score (s : list nat) : Q := value (chosen s) (objective p).
Let ok (s : list nat) : Prop := feasible (chosen s) p = true.

Lemma best_feasible (cands : list (list nat)) :
  forall acc s,
    (forall b, acc = Some b -> ok b) ->
    best p cands acc = Some s -> ok s.
Proof.
  induction cands as [|c t IH]; simpl; intros acc s Hacc Hbest.
  - now apply Hacc.
  - apply IH in Hbest; [exact Hbest|].
    intros b Hb.
    destruct (feasible (chosen c) p) eqn:Hc; [|now apply Hacc].
    destruct acc as [a|].
    + destruct (Qlt_bool _ _) in Hb.
      * injection Hb as <-. exact Hc.
      * now apply Hacc.
    + injection Hb as <-. exact Hc.
Qed.

Lemma best_max (cands : list (list nat)) :
  forall acc s,
    best p cands acc = Some s ->
    (forall b, acc = Some b -> score b <= score s)
    /\ (forall c, In c cands -> ok c -> score c <= score s).
Proof.
  induction cands as [|c t IH]; simpl; intros acc s Hbest.
  - split; [|contradiction].
    intros b Hb. rewrite Hb in Hbest. injection Hbest as <-.
    apply Qle_refl.
  - apply IH in Hbest. destruct Hbest as [Hacc' Ht].
    destruct (feasible (chosen c) p) eqn:Hc.
    + destruct acc as [a|].
      * destruct (Qlt_bool (value (chosen a) (objective p))
                           (value (chosen c) (objective p))) eqn:Hlt.
        -- pose proof (Hacc' c eq_refl) as Hcs.
           apply Qlt_bool_true in Hlt. split.
           ++ intros b Hb. injection Hb as <-.
              apply Qle_trans with (score c); [|exact Hcs].
              now apply Qlt_le_weak.
           ++ intros d [<-|Hd] Hok; [exact Hcs|now apply Ht].
        -- pose proof (Hacc' a eq_refl) as Has.
           apply Qlt_bool_false in Hlt. split.
           ++ intros b Hb. injection Hb as <-. exact Has.
           ++ intros d [<-|Hd] Hok; [|now apply Ht].
              now apply Qle_trans with (score a).
      * split; [discriminate|].
        intros d [<-|Hd] Hok; [now apply Hacc'|now apply Ht].
    + split; [exact Hacc'|].
      intros d [<-|Hd] Hok; [unfold ok in Hok; congruence|now apply Ht].
Qed.

Lemma best_none (cands : list (list nat)) :
  forall acc,
    best p cands acc = None ->
    acc = None /\ (forall c, In c cands -> feasible (chosen c) p = false).
Proof.
  induction cands as [|c t IH]; simpl; intros acc Hbest.
  - split; [exact Hbest|contradiction].
  - apply IH in Hbest. destruct Hbest as [Hacc' Ht].
    destruct (feasible (chosen c) p) eqn:Hc.
    + destruct acc as [a|]; [|discriminate].
      destruct (Qlt_bool _ _) in Hacc'; discriminate.
    + split; [exact Hacc'|].
      intros d [<-|Hd]; [exact Hc|now apply Ht].
Qed.

End Best.

Lemma rounded_search (p : problem) (s : list nat) :
  best p (subsets (variables p)) None = Some s ->
  forall i, rounded (search p) i = chosen s i.
Proof.
  intros Hs i. unfold search. rewrite Hs. unfold rounded. simpl.
  now destruct (chosen s i).
Qed.

(** Exhaustive search meets the contract of an exact back end. *)
Lemma search_exact : exact search.
Proof.
  intros p Hst.
  destruct (best p (subsets (variables p)) None) as [s|] eqn:Hs.
  2:{ unfold search in Hst. rewrite Hs in Hst. discriminate. }
  pose proof (rounded_search p s Hs) as Hr.
  assert (Hfeas : feasible (chosen s) p = true).
  { apply (best_feasible p (subsets (variables p)) None s);
    [discriminate|exact Hs]. }
  split; [|split].
  - intros i _. unfold search. rewrite Hs. discriminate.
  - rewrite (feasible_ext _ (chosen s)); [exact Hfeas|].
    intros i _. apply Hr.
  - intros x Hx.
    rewrite (value_ext (rounded (search p)) (chosen s))
      by (intros i _; apply Hr).
    pose proof (best_max p _ None s Hs) as [_ Hmax].
    rewrite (objective_ext x (chosen (filter x (variables p)))).
    + apply Hmax; [apply subsets_complete|].
      rewrite <- Hx. apply feasible_ext.
      intros i Hi. now apply chosen_filter.
    + intros i Hi. symmetry. now apply chosen_filter.
Qed.

End LPFacts.

(** ** The program built by [optimize_squad] against the squad it denotes *)

Module OptimizerFacts.

Import Enrichment LP Optimizer.

Lemma items_from_snd (players : frame) :
  forall k, map snd (items_from k players) = players.
Proof.
  induction players as [|r t IH]; simpl; intros k; [reflexivity|].
  now rewrite IH.
Qed.

Lemma pick_incl (x : assignment) (players : frame) (r : row) :
  In r (pick x players) -> In r players.
Proof.
  unfold pick, items. intros H.
  apply in_map_iff in H. destruct H as [[i r'] [<- H]].
  apply filter_In in H. destruct H as [H _].
  rewrite <- (items_from_snd players 0).
  apply in_map_iff. now exists (i, r').
Qed.

Lemma value_weighted (x : assignment) (col : row -> float)
    (players : frame) :
  value x (weighted col players) == total col (pick x players).
Proof.
  unfold weighted, pick, items. generalize 0%nat as k.
  induction players as [|r t IH]; simpl; intros k; [reflexivity|].
  rewrite IH. destruct (x k); simpl; [reflexivity|].
  apply Qplus_0_l.
Qed.

Lemma value_counted (x : assignment) (mask : row -> bool)
    (players : frame) :
  value x (counted mask players)
  == inject_Z (Z.of_nat (List.length (filter mask (pick x players)))).
Proof.
  unfold counted, index_where, pick, items. generalize 0%nat as k.
  induction players as [|r t IH]; simpl; intros k; [reflexivity|].
  destruct (mask r) eqn:Hm; simpl.
  - rewrite IH. destruct (x k); simpl.
    + rewrite Hm. simpl List.length.
      rewrite Nat2Z.inj_succ, <- Z.add_1_l, inject_Z_plus. reflexivity.
    + apply Qplus_0_l.
  - rewrite IH. destruct (x k); simpl; [now rewrite Hm|reflexivity].
Qed.

Lemma unique_from_complete (l seen : list string) (t : string) :
  In t l -> existsb (String.eqb t) seen = true \/ In t (unique_from seen l).
Proof.
  revert seen. induction l as [|h l IH]; simpl; intros seen H;
    [contradiction|].
  destruct H as [->|H].
  - destruct (existsb (String.eqb t) seen) eqn:Hs; [now left|].
    right. now left.
  - destruct (existsb (String.eqb h) seen) eqn:Hs.
    + now apply IH.
    + destruct (IH (h :: seen) H) as [Hin|Hin].
      * simpl in Hin. apply orb_true_iff in Hin.
        destruct Hin as [Hin|Hin]; [|now left].
        apply String.eqb_eq in Hin. subst h. right. now left.
      * right. now right.
Qed.

Lemma unique_complete (l : list string) (t : string) :
  In t l -> In t (unique l).
Proof.
  intros H. destruct (unique_from_complete l [] t H) as [Hs|Hs];
    [discriminate|exact Hs].
Qed.

Lemma count_team_absent (t : string) (squad : frame) :
  ~ In t (map team squad) -> count_team t squad = 0%Z.
Proof.
  unfold count_team. induction squad as [|r s IH]; simpl; intros H;
    [reflexivity|].
  destruct (team r =? t) eqn:Hr.
  - apply String.eqb_eq in Hr. exfalso. apply H. now left.
  - apply IH. intros Hin. apply H. now right.
Qed.

Lemma holds_position (x : assignment) (players : frame) (p : string)
    (n : Z) :
  holds x (position_constraint players (p, n)) = true
  <-> count_pos p (pick x players) = n.
Proof.
  unfold holds, position_constraint, count_pos. simpl.
  rewrite Qeq_bool_iff, value_counted. apply inject_Z_injective.
Qed.

Lemma holds_team (x : assignment) (players : frame) (t : string) :
  holds x (team_constraint players t) = true
  <-> (count_team t (pick x players) <= MAX_PER_TEAM)%Z.
Proof.
  unfold holds, team_constraint, count_team. simpl.
  rewrite Qle_bool_iff, value_counted, Zle_Qle. reflexivity.
Qed.

(** An assignment satisfies the program exactly when the rows it picks
    form a squad within budget, structure and team cap. *)
Lemma feasible_iff_valid (x : assignment) (players : frame) :
  feasible x (build players) = true <-> valid_squad (pick x players).
Proof.
  unfold feasible, build. cbn [constraints app forallb].
  rewrite !andb_true_iff, forallb_app, andb_true_iff.
  rewrite !forallb_forall.
  unfold valid_squad, within_budget, meets_structure, within_team_cap.
  unfold holds at 1 2. cbn [c_sense c_lhs c_rhs].
  rewrite !Qle_bool_iff, !value_weighted.
  split.
  - intros [Hle [Hge [Hpos Hteam]]]. repeat split; try assumption.
    + intros p n Hin. apply holds_position, Hpos.
      apply in_map_iff. now exists (p, n).
    + intros t.
      destruct (in_dec string_dec t (map team players)) as [Hin|Hin].
      * apply holds_team, Hteam, in_map_iff. exists t.
        split; [reflexivity|now apply unique_complete].
      * rewrite count_team_absent; [discriminate|].
        intros H. apply Hin. apply in_map_iff in H.
        destruct H as [r [<- Hr]]. apply in_map.
        now apply (pick_incl x).
  - intros [[Hle Hge] [Hpos Hteam]]. repeat split; try assumption.
    + intros c Hc. apply in_map_iff in Hc. destruct Hc as [[p n] [<- Hin]].
      now apply holds_position, Hpos.
    + intros c Hc. apply in_map_iff in Hc. destruct Hc as [t [<- _]].
      apply holds_team, Hteam.
Qed.

Lemma selected_filter (s : solution) (idxs l : list nat) :
  selected s idxs = Some l -> l = filter (rounded s) idxs.
Proof.
  revert l. induction idxs as [|i t IH]; simpl; intros l H.
  - now injection H as <-.
  - unfold rounded at 1.
    destruct (varValue s i) as [v|]; [|discriminate].
    destruct (selected s t) as [l'|]; [|discriminate].
    injection H as <-. rewrite (IH l' eq_refl).
    now destruct (Qlt_bool (1 # 2) v).
Qed.

Lemma selected_defined (s : solution) (idxs : list nat) :
  (forall i, In i idxs -> varValue s i <> None) ->
  selected s idxs <> None.
Proof.
  induction idxs as [|i t IH]; simpl; intros H; [discriminate|].
  destruct (varValue s i) as [v|] eqn:Hv.
  - destruct (selected s t) as [l|] eqn:Hl; [discriminate|].
    exfalso. apply IH; [|reflexivity]. intros j Hj. apply H. now right.
  - exfalso. apply (H i); [now left|exact Hv].
Qed.

Lemma loc_pick_from (x : assignment) (t pre : frame) :
  loc (pre ++ t)
      (filter x (map fst (items_from (List.length pre) t)))
  = map snd (filter (fun ir => x (fst ir)) (items_from (List.length pre) t)).
Proof.
  revert pre. induction t as [|r t IH]; intros pre; [reflexivity|].
  assert (Hrec : loc (pre ++ r :: t)
                   (filter x (map fst (items_from (S (List.length pre)) t)))
                 = map snd (filter (fun ir => x (fst ir))
                              (items_from (S (List.length pre)) t))).
  { specialize (IH (pre ++ [r])).
    rewrite <- app_assoc, length_app, Nat.add_1_r in IH. exact IH. }
  cbn [items_from map fst filter].
  destruct (x (List.length pre)); [|exact Hrec].
  cbn [map snd]. rewrite <- Hrec. unfold loc. cbn [flat_map].
  rewrite nth_error_app2, Nat.sub_diag by apply Nat.le_refl.
  reflexivity.
Qed.

Lemma loc_pick (x : assignment) (players : frame) :
  loc players (filter x (map fst (items players))) = pick x players.
Proof. exact (loc_pick_from x players []). Qed.

Lemma objective_indices (players : frame) :
  map fst (objective (build players)) = map fst (items players).
Proof. unfold build, weighted. simpl. now rewrite map_map. Qed.

Lemma index_in_variables (players : frame) (i : nat) :
  In i (map fst (items players)) -> In i (variables (build players)).
Proof.
  intros H. apply LPFacts.in_variables_objective.
  now rewrite objective_indices.
Qed.

(** Whatever the back end answers, the script either stops on a missing
    value or returns the rows the rounded values pick. *)
Lemma optimize_squad_result (solve : problem -> solution)
    (players : frame) :
  snd (optimize_squad solve players) = Raise TypeError
  \/ snd (optimize_squad solve players)
     = Return (pick (rounded (solve (build players))) players).
Proof.
  unfold optimize_squad. simpl.
  destruct (selected _ _) as [l|] eqn:Hl; [right|now left].
  apply selected_filter in Hl. subst l. now rewrite loc_pick.
Qed.

(** In the solved case nothing is printed and a squad is returned. *)
Lemma optimize_squad_solved (solve : problem -> solution)
    (players : frame) :
  exact solve ->
  sol_status (solve (build players)) = LpStatusOptimal ->
  optimize_squad solve players
  = ([Solved (build players)],
     Return (pick (rounded (solve (build players))) players)).
Proof.
  intros Hex Hst.
  destruct (Hex _ Hst) as [Hdef _].
  destruct (optimize_squad_result solve players) as [H|H].
  - exfalso. unfold optimize_squad in H. simpl in H.
    destruct (selected _ _) eqn:Hs; [discriminate|].
    revert Hs. apply selected_defined.
    intros i Hi. apply Hdef. now apply index_in_variables.
  - unfold optimize_squad in *. simpl in H. rewrite H, Hst. reflexivity.
Qed.

Lemma is_role_unfold (p : string) :
  is_role p
  = (("GK" =? p) || (("DEF" =? p) || (("MID" =? p) || (("FWD" =? p) || false)))).
Proof. reflexivity. Qed.

Lemma role_cases (p : string) :
  is_role p = true ->
  p = "GK" \/ p = "DEF" \/ p = "MID" \/ p = "FWD".
Proof.
  rewrite is_role_unfold, !orb_true_iff, !String.eqb_eq.
  intuition (auto; discriminate).
Qed.

(** The rows holding one of the four roles are counted once each by the
    four per-role counts. *)
Lemma role_rows_count (squad : frame) :
  Z.of_nat (List.length (filter (fun r => is_role (pos r)) squad))
  = (count_pos "GK" squad + count_pos "DEF" squad
     + count_pos "MID" squad + count_pos "FWD" squad)%Z.
Proof.
  unfold count_pos. induction squad as [|r s IH]; [reflexivity|].
  cbn [filter].
  destruct (is_role (pos r)) eqn:Hr.
  - apply role_cases in Hr.
    destruct Hr as [Hp|[Hp|[Hp|Hp]]]; rewrite Hp;
      cbn [String.eqb Ascii.eqb Bool.eqb andb List.length];
      rewrite !Nat2Z.inj_succ; lia.
  - rewrite is_role_unfold, !orb_false_iff in Hr.
    destruct Hr as [H1 [H2 [H3 [H4 _]]]].
    rewrite String.eqb_sym in H1. rewrite String.eqb_sym in H2.
    rewrite String.eqb_sym in H3. rewrite String.eqb_sym in H4.
    rewrite H1, H2, H3, H4. exact IH.
Qed.

End OptimizerFacts.

(** ** Points estimator *)

Lemma PL_BASE_value : PL_BASE = 90.6%float.
Proof. reflexivity. Qed.

Lemma PL_BASE_self_ratio : (PL_BASE / PL_BASE)%float = 1%float.
Proof. reflexivity. Qed.

Lemma goal_weight_of_code (r : Spec.role) (goals assists : float) :
  Estimator.estimate_fpl_pts goals assists (Spec.code r)
  = (goals * Spec.goal_weight r + assists * 3)%float.
Proof. destruct r; reflexivity. Qed.

Lemma factor_of_rating (league : string) :
  (Py.get LEAGUE_DIFFICULTY league PL_BASE / PL_BASE)%float
  = Spec.factor league.
Proof.
  unfold Py.get, Spec.factor.
  destruct (Py.item LEAGUE_DIFFICULTY league) as [strength|].
  - reflexivity.
  - apply PL_BASE_self_ratio.
Qed.

(** C4: for every goals, assists, league and role, chaining [weight_stats]
    and [estimate_fpl_pts] yields weighted_goals * goal_weight +
    weighted_assists * 3, where both statistics are scaled by the league's
    strength over the reference strength (by 1.0 for a league outside the
    table) and the goal weight is 10, 6, 5, 4 for GK, DEF, MID, FWD. *)
Theorem estimate_matches_formula (goals assists : float) (league : string)
    (r : Spec.role) :
  Estimator.estimate_fpl_pts
    (fst (Estimator.weight_stats goals assists league))
    (snd (Estimator.weight_stats goals assists league))
    (Spec.code r)
  = Spec.points goals assists league r.
Proof.
  rewrite goal_weight_of_code.
  unfold Estimator.weight_stats, Estimator.weight_stats_in, Spec.points.
  cbn [fst snd Estimator.g_LEAGUE_DIFFICULTY Estimator.g_PL_BASE
       Estimator.module_globals].
  now rewrite factor_of_rating.
Qed.

(** C10: for every position string other than "GK", "DEF" and "MID",
    [estimate_fpl_pts] applies the goal weight 4; being a total function it
    yields a value for every string. *)
Theorem other_positions_score_as_forward (goals assists : float)
    (pos : string) :
  pos <> "GK" -> pos <> "DEF" -> pos <> "MID" ->
  Estimator.estimate_fpl_pts goals assists pos
  = (goals * 4 + assists * 3)%float.
Proof.
  intros H1 H2 H3. unfold Estimator.estimate_fpl_pts.
  apply String.eqb_neq in H1, H2, H3. now rewrite H1, H2, H3.
Qed.

(** A position string that is no code at all. *)
Lemma other_positions_score_as_forward_witness :
  Estimator.estimate_fpl_pts 2 1 "striker" = (2 * 4 + 1 * 3)%float.
Proof.
  apply (other_positions_score_as_forward 2 1 "striker"); discriminate.
Defined.

(** ** Enrichment and the cache *)

Module EnrichmentFacts.

Import Enrichment.

(** [enrich] saves the cache it loaded: the list of new records it
    appends is empty. *)
Lemma enrich_saves_loaded_cache
    (fetch_tm_stats fetch_fbref_stats : string -> option stats)
    (f : file) (players : list row) :
  snd (enrich fetch_tm_stats fetch_fbref_stats f players)
  = Some (load_cache f).
Proof. reflexivity. Qed.

(** The frame keeps one row per input row, in order. *)
Lemma enrich_length
    (fetch_tm_stats fetch_fbref_stats : string -> option stats)
    (f : file) (players : list row) :
  List.length (fst (enrich fetch_tm_stats fetch_fbref_stats f players))
  = List.length players.
Proof. unfold enrich. simpl. apply length_map. Qed.

(** [get_external], the variant [enrich] no longer calls, does persist a
    fresh lookup. *)
Lemma get_external_persists
    (fetch_tm_stats fetch_fbref_stats : string -> option stats)
    (player_name web_name_ : string) (c : cache) (f : file) :
  cache_hit c player_name web_name_ = None ->
  snd (get_external fetch_tm_stats fetch_fbref_stats
         player_name web_name_ c f)
  = Some (c ++ [scrape fetch_tm_stats fetch_fbref_stats
                  player_name web_name_]).
Proof. intros H. unfold get_external. now rewrite H. Qed.

End EnrichmentFacts.

(** C6: the claim asks that every record scraped during a run be in the
    saved cache afterwards.  With no cache file and one player known to
    Transfermarkt, the run scrapes his record and saves an empty cache. *)
Theorem enrich_drops_new_lookups :
  Enrichment.looked_up Sample.tm Sample.fbref Sample.signing
    (Enrichment.load_cache None)
  = Some (Enrichment.mkRecord "Joao Pedro" "J.Pedro" "Brazil Serie A" SEASON
            10 5 2000 "Transfermarkt")
  /\ Enrichment.ext_league
       (hd Sample.signing
          (fst (Enrichment.enrich Sample.tm Sample.fbref None
                  [Sample.signing])))
     = Some "Brazil Serie A"
  /\ snd (Enrichment.enrich Sample.tm Sample.fbref None [Sample.signing])
     = Some [].
Proof. repeat split. Qed.

(** ** Squad optimiser *)

Module SolverFacts.

Import Enrichment LP Optimizer OptimizerFacts.

(** Exhaustive search reports [Optimal] as soon as some assignment is
    feasible. *)
Lemma search_complete (p : problem) (x : assignment) :
  feasible x p = true -> sol_status (search p) = LpStatusOptimal.
Proof.
  intros Hx. unfold search.
  destruct (best p (subsets (variables p)) None) as [s|] eqn:Hs;
    [reflexivity|].
  apply LPFacts.best_none in Hs. destruct Hs as [_ Hnone].
  specialize (Hnone _ (LPFacts.subsets_complete x (variables p))).
  rewrite (LPFacts.feasible_ext _ x) in Hnone; [congruence|].
  intros i Hi. now apply LPFacts.chosen_filter.
Qed.

Lemma value_le_full (x : assignment) (e : expr) :
  forallb (fun ic => Qlt_bool 0 (snd ic)) e = true ->
  value x e <= value (fun _ => true) e.
Proof.
  induction e as [|[i c] t IH]; simpl; intros H; [apply Qle_refl|].
  apply andb_true_iff in H. destruct H as [Hc Ht].
  apply Qlt_bool_true in Hc. specialize (IH Ht).
  destruct (x i); lra.
Qed.

(** With positive coefficients only the full assignment reaches the
    full value. *)
Lemma full_value_forces (x : assignment) (e : expr) :
  forallb (fun ic => Qlt_bool 0 (snd ic)) e = true ->
  value (fun _ => true) e <= value x e ->
  forall i, In i (map fst e) -> x i = true.
Proof.
  induction e as [|[j c] t IH]; simpl; intros H Hv i Hi; [contradiction|].
  apply andb_true_iff in H. destruct H as [Hc Ht].
  pose proof (value_le_full x t Ht) as Hle.
  apply Qlt_bool_true in Hc.
  destruct (x j) eqn:Hx.
  - destruct Hi as [<-|Hi]; [exact Hx|].
    apply IH; [exact Ht|lra|exact Hi].
  - exfalso. lra.
Qed.

Lemma pick_all (x : assignment) (players : frame) :
  (forall i, In i (map fst (items players)) -> x i = true) ->
  pick x players = players.
Proof.
  unfold pick, items. generalize 0%nat as k.
  induction players as [|r t IH]; simpl; intros k H; [reflexivity|].
  rewrite (H k) by now left. simpl. f_equal.
  apply IH. intros i Hi. apply H. now right.
Qed.

Lemma filter_all {A : Type} (f : A -> bool) (l : list A) :
  Forall (fun a => f a = true) l -> filter f l = l.
Proof.
  induction 1 as [|a l Ha _ IH]; simpl; [reflexivity|].
  now rewrite Ha, IH.
Qed.

Lemma budget_ceiling : Qval BUDGET = 100.
Proof. reflexivity. Qed.

Lemma budget_floor : Qval (BUDGET * 0.99)%float = 99.
Proof. reflexivity. Qed.

Lemma required_size_value : required_size = 15%Z.
Proof. reflexivity. Qed.

(** Taking every row of the sample frames satisfies the program. *)
Lemma fifteen_feasible : feasible (fun _ => true) (build Sample.fifteen) = true.
Proof. vm_compute. reflexivity. Qed.

Lemma sixteen_feasible : feasible (fun _ => true) (build Sample.sixteen) = true.
Proof. vm_compute. reflexivity. Qed.

(** Every exact back end that solves the sixteen-row sample selects all
    sixteen rows: each row is needed. *)
Lemma sixteen_all_selected (solve : problem -> solution) :
  exact solve ->
  sol_status (solve (build Sample.sixteen)) = LpStatusOptimal ->
  snd (optimize_squad solve Sample.sixteen) = Return Sample.sixteen.
Proof.
  intros Hex Hst.
  rewrite (optimize_squad_solved solve _ Hex Hst). simpl snd. f_equal.
  destruct (Hex _ Hst) as [_ [_ Hopt]].
  specialize (Hopt _ sixteen_feasible).
  apply pick_all. intros i Hi.
  apply (full_value_forces _ (objective (build Sample.sixteen)));
    [vm_compute; reflexivity|exact Hopt|].
  now rewrite objective_indices.
Qed.

Lemma lone_keeper_infeasible (x : assignment) :
  ~ valid_squad (pick x Sample.lone_keeper).
Proof.
  intros [_ [Hs _]].
  specialize (Hs "DEF" 5%Z). unfold pick, items in Hs. simpl in Hs.
  destruct (x 0%nat); simpl in Hs;
    (assert (H : (0 = 5)%Z) by (apply Hs; right; now left); discriminate).
Qed.

End SolverFacts.

Section SolvedSquad.

Import Enrichment LP Optimizer OptimizerFacts SolverFacts.

Variable solve : problem -> solution.
Hypothesis solve_exact : exact solve.

Variable players : frame.

Let answer : solution := solve (build players).

(** The squad the script returns in the solved case is valid. *)
Lemma solved_squad_valid :
  sol_status answer = LpStatusOptimal ->
  valid_squad (pick (rounded answer) players).
Proof.
  intros Hst. apply feasible_iff_valid.
  now destruct (solve_exact _ Hst) as [_ [Hf _]].
Qed.

End SolvedSquad.

(** C5, amended: [optimize_squad] has no validation step and no invalid-
    input outcome: on every frame, whatever its costs and positions, the
    first effect is the solver call on the program built from the rows as
    given, followed by at most one printed warning, and the outcome is a
    selection of rows or the [TypeError] of a missing variable value. *)
Theorem solver_runs_on_any_input
    (solve : LP.problem -> LP.solution) (players : Optimizer.frame) :
  exists warning,
    fst (Optimizer.optimize_squad solve players)
    = Optimizer.Solved (Optimizer.build players) :: warning
    /\ (warning = [] \/ exists line, warning = [Optimizer.Printed line])
    /\ (snd (Optimizer.optimize_squad solve players)
        = Optimizer.Raise Optimizer.TypeError
        \/ snd (Optimizer.optimize_squad solve players)
           = Optimizer.Return
               (Optimizer.pick
                  (LP.rounded (solve (Optimizer.build players))) players)).
Proof.
  unfold Optimizer.optimize_squad at 1. cbn [fst].
  eexists. split; [reflexivity|split].
  - destruct (LP.sol_status (solve (Optimizer.build players)));
      [right|left|right|right|right]; try reflexivity; eexists; reflexivity.
  - apply OptimizerFacts.optimize_squad_result.
Qed.

(** C5 as stated fails: a frame whose only record has a negative cost and
    an unknown position goes to the solver like any other. *)
Lemma malformed_input_reaches_solver :
  Forall (fun r => Qval (Enrichment.cost r) < 0
                   /\ Optimizer.is_role (Enrichment.pos r) = false)
         Sample.malformed
  /\ Optimizer.optimize_squad LP.search Sample.malformed
     = ([ Optimizer.Solved (Optimizer.build Sample.malformed);
          Optimizer.Printed "Warning: Solver status: Infeasible" ],
        Optimizer.Return [])
  /\ (forall solve,
        hd_error (fst (Optimizer.optimize_squad solve Sample.malformed))
        = Some (Optimizer.Solved (Optimizer.build Sample.malformed))).
Proof.
  split; [repeat constructor|].
  split; [vm_compute; reflexivity|].
  intros solve. reflexivity.
Qed.

(** ** The optimiser over a back end that works to a tolerance *)

Module ToleranceFacts.

Import Enrichment LP Optimizer OptimizerFacts Tolerance.

Lemma forallb_flat_map {A B : Type} (f : B -> bool) (g : A -> list B)
    (l : list A) :
  forallb f (flat_map g l) = forallb (fun a => forallb f (g a)) l.
Proof.
  induction l as [|a l IH]; simpl; [reflexivity|].
  now rewrite forallb_app, IH.
Qed.

Lemma feasible_within_holds (eps : Q) (x : assignment) (p : problem) :
  feasible_within eps x p = forallb (holds_within eps x) (constraints p).
Proof. apply forallb_flat_map. Qed.

Lemma within_le (eps : Q) (x : assignment) (lhs : expr) (rhs : Q) :
  holds_within eps x (mkConstraint lhs LpConstraintLE rhs) = true
  <-> value x lhs <= rhs + eps.
Proof.
  unfold holds_within, relax_constraint, holds. cbn.
  rewrite andb_true_r. apply Qle_bool_iff.
Qed.

Lemma within_ge (eps : Q) (x : assignment) (lhs : expr) (rhs : Q) :
  holds_within eps x (mkConstraint lhs LpConstraintGE rhs) = true
  <-> rhs - eps <= value x lhs.
Proof.
  unfold holds_within, relax_constraint, holds. cbn.
  rewrite andb_true_r. apply Qle_bool_iff.
Qed.

Lemma within_eq (eps : Q) (x : assignment) (lhs : expr) (rhs : Q) :
  holds_within eps x (mkConstraint lhs LpConstraintEQ rhs) = true
  <-> value x lhs <= rhs + eps /\ rhs - eps <= value x lhs.
Proof.
  unfold holds_within, relax_constraint, holds. cbn.
  rewrite andb_true_r, andb_true_iff, !Qle_bool_iff. reflexivity.
Qed.

(** Within a tolerance below 1 a count is the integer it is bound to. *)
Lemma count_pinned (c n : Z) (eps : Q) :
  eps < 1 ->
  inject_Z c <= inject_Z n + eps ->
  inject_Z n - eps <= inject_Z c ->
  c = n.
Proof.
  intros He Hle Hge.
  assert (H1 : inject_Z c < inject_Z (n + 1)).
  { rewrite inject_Z_plus. change (inject_Z 1) with 1. lra. }
  assert (H2 : inject_Z (n - 1) < inject_Z c).
  { unfold Z.sub. rewrite inject_Z_plus. change (inject_Z (- (1))) with (-1).
    lra. }
  rewrite <- Zlt_Qlt in H1, H2. lia.
Qed.

Lemma count_capped (c n : Z) (eps : Q) :
  eps < 1 -> inject_Z c <= inject_Z n + eps -> (c <= n)%Z.
Proof.
  intros He Hle.
  assert (H1 : inject_Z c < inject_Z (n + 1)).
  { rewrite inject_Z_plus. change (inject_Z 1) with 1. lra. }
  rewrite <- Zlt_Qlt in H1. lia.
Qed.

(** An assignment that meets the program to within a tolerance below 1
    picks a squad that meets the counts exactly and the budget to within
    that tolerance. *)
Lemma feasible_within_valid (eps : Q) (x : assignment) (players : frame) :
  eps < 1 ->
  feasible_within eps x (build players) = true ->
  valid_within eps (pick x players).
Proof.
  intros He. rewrite feasible_within_holds.
  unfold build. cbn [constraints app forallb].
  rewrite !andb_true_iff, forallb_app, andb_true_iff, !forallb_forall.
  rewrite within_le, within_ge, !value_weighted.
  intros [Hle [Hge [Hpos Hteam]]].
  unfold valid_within, meets_structure, within_team_cap.
  repeat split; try assumption.
  - intros p n Hin.
    assert (Hc : holds_within eps x (position_constraint players (p, n))
                 = true).
    { apply Hpos, in_map_iff. now exists (p, n). }
    unfold position_constraint in Hc. cbn [fst snd] in Hc.
    apply within_eq in Hc. rewrite value_counted in Hc.
    destruct Hc as [H1 H2]. unfold count_pos.
    now apply (count_pinned _ n eps).
  - intros t.
    destruct (in_dec string_dec t (map team players)) as [Hin|Hin].
    + assert (Hc : holds_within eps x (team_constraint players t) = true).
      { apply Hteam, in_map_iff. exists t.
        split; [reflexivity|now apply unique_complete]. }
      unfold team_constraint in Hc. apply within_le in Hc.
      rewrite value_counted in Hc. unfold count_team.
      now apply (count_capped _ MAX_PER_TEAM eps).
    + rewrite count_team_absent; [discriminate|].
      intros H. apply Hin. apply in_map_iff in H.
      destruct H as [r [<- Hr]]. apply in_map.
      now apply (pick_incl x).
Qed.

(** Loosening a constraint keeps what satisfied it. *)
Lemma holds_loosened (eps : Q) (x : assignment) (c : constraint) :
  0 <= eps -> holds x c = true -> holds_within eps x c = true.
Proof.
  intros He Hh. destruct c as [lhs sns rhs].
  destruct sns; unfold holds in Hh; cbn [c_sense c_lhs c_rhs] in Hh.
  - apply within_le. apply Qle_bool_iff in Hh. lra.
  - apply within_ge. apply Qle_bool_iff in Hh. lra.
  - apply within_eq. apply Qeq_bool_iff in Hh. rewrite Hh. lra.
Qed.

(** An exact back end meets every tolerance. *)
Lemma exact_tolerant (eps : Q) (solve : problem -> solution) :
  0 <= eps -> exact solve -> tolerant eps solve.
Proof.
  intros He Hex p Hst. destruct (Hex p Hst) as [Hdef [Hf _]].
  split; [exact Hdef|].
  rewrite feasible_within_holds. unfold feasible in Hf.
  rewrite forallb_forall in *. intros c Hc.
  apply holds_loosened; [exact He|now apply Hf].
Qed.

Lemma search_within_tolerant (eps : Q) : tolerant eps (search_within eps).
Proof.
  intros p Hst. unfold search_within in *. split.
  - intros i _. unfold search.
    destruct (best _ _ _); discriminate.
  - now destruct (LPFacts.search_exact (relax eps p) Hst) as [_ [Hf _]].
Qed.

Lemma search_within_complete (eps : Q) (p : problem) (x : assignment) :
  feasible_within eps x p = true ->
  sol_status (search_within eps p) = LpStatusOptimal.
Proof. apply SolverFacts.search_complete. Qed.

(** With every value in place and the status [Optimal], the script
    prints nothing and returns the rows the rounded values pick. *)
Lemma optimize_squad_tolerant (eps : Q) (solve : problem -> solution)
    (players : frame) :
  tolerant eps solve ->
  sol_status (solve (build players)) = LpStatusOptimal ->
  optimize_squad solve players
  = ([Solved (build players)],
     Return (pick (rounded (solve (build players))) players)).
Proof.
  intros Htol Hst. destruct (Htol _ Hst) as [Hdef _].
  destruct (optimize_squad_result solve players) as [H|H].
  - exfalso. unfold optimize_squad in H. simpl in H.
    destruct (selected _ _) eqn:Hs; [discriminate|].
    revert Hs. apply selected_defined.
    intros i Hi. apply Hdef. now apply index_in_variables.
  - unfold optimize_squad in *. simpl in H. rewrite H, Hst. reflexivity.
Qed.

Lemma solved_squad_valid_within (eps : Q) (solve : problem -> solution)
    (players : frame) :
  eps < 1 ->
  tolerant eps solve ->
  sol_status (solve (build players)) = LpStatusOptimal ->
  valid_within eps (pick (rounded (solve (build players))) players).
Proof.
  intros He Htol Hst. apply feasible_within_valid; [exact He|].
  now destruct (Htol _ Hst) as [_ Hf].
Qed.

(** A squad that meets the structure holds fifteen rows with a role. *)
Lemma structure_role_rows (squad : frame) :
  meets_structure squad ->
  Z.of_nat (List.length (filter (fun r => is_role (pos r)) squad)) = 15%Z.
Proof.
  intros Hs. rewrite role_rows_count.
  rewrite (Hs "GK" 2%Z), (Hs "DEF" 5%Z), (Hs "MID" 5%Z), (Hs "FWD" 3%Z);
    [reflexivity| | | |]; simpl; tauto.
Qed.

Lemma pick_from_length (x : assignment) (players : frame) :
  forall k,
    (List.length
       (map snd (filter (fun ir : nat * row => x (fst ir))
                   (items_from k players)))
     <= List.length players)%nat.
Proof.
  induction players as [|r t IH]; intros k; simpl; [lia|].
  specialize (IH (S k)). destruct (x k); simpl; lia.
Qed.

(** A selection as long as the frame is the frame. *)
Lemma pick_full (x : assignment) (players : frame) :
  List.length (pick x players) = List.length players ->
  pick x players = players.
Proof.
  unfold pick, items. generalize 0%nat as k.
  induction players as [|r t IH]; intros k; simpl; [reflexivity|].
  destruct (x k) eqn:Hx; simpl; intros H.
  - f_equal. apply IH. lia.
  - exfalso. pose proof (pick_from_length x t (S k)). lia.
Qed.

(** A selection that meets the structure takes every row of a frame of
    fifteen. *)
Lemma structure_takes_all (x : assignment) (players : frame) :
  meets_structure (pick x players) ->
  List.length players = 15%nat ->
  pick x players = players.
Proof.
  intros Hs Hlen. apply pick_full.
  apply structure_role_rows in Hs.
  pose proof (filter_length_le (fun r => is_role (pos r))
                (pick x players)) as H1.
  pose proof (pick_from_length x players 0) as H2.
  fold (items players) in H2. fold (pick x players) in H2.
  lia.
Qed.

(** When the frame holds exactly the fifteen rows the structure asks for,
    a solved run returns them all. *)
Lemma full_frame_forced (eps : Q) (solve : problem -> solution)
    (players : frame) :
  eps < 1 ->
  tolerant eps solve ->
  sol_status (solve (build players)) = LpStatusOptimal ->
  List.length players = 15%nat ->
  snd (optimize_squad solve players) = Return players.
Proof.
  intros He Htol Hst Hlen.
  rewrite (optimize_squad_tolerant eps solve players Htol Hst). cbn [snd].
  f_equal. apply structure_takes_all; [|exact Hlen].
  now pose proof (solved_squad_valid_within eps solve players He Htol Hst)
    as [_ [_ [Hs _]]].
Qed.

End ToleranceFacts.

(** C1, amended: in the solved case, with a back end whose answer meets
    the program to within a feasibility tolerance [eps] below 1 (0 for an
    exact answer) and a frame whose cells are numbers, the returned squad
    has exactly 2, 5, 5 and 3 players in the roles GK, DEF, MID and FWD,
    at most 3 players of any team, and a total cost of at most 100 + eps
    and at least 99 - eps; its rows holding one of the four roles number
    15, and so does the whole squad when every selected row holds one of
    the four roles. *)
Theorem solved_squad_meets_constraints
    (eps : Q) (solve : LP.problem -> LP.solution)
    (players : Optimizer.frame) :
  0 <= eps -> eps < 1 ->
  Tolerance.tolerant eps solve ->
  Tolerance.finite_cells players ->
  LP.sol_status (solve (Optimizer.build players)) = LP.LpStatusOptimal ->
  exists squad,
    snd (Optimizer.optimize_squad solve players) = Optimizer.Return squad
    /\ Optimizer.count_pos "GK" squad = 2%Z
    /\ Optimizer.count_pos "DEF" squad = 5%Z
    /\ Optimizer.count_pos "MID" squad = 5%Z
    /\ Optimizer.count_pos "FWD" squad = 3%Z
    /\ (forall t, (Optimizer.count_team t squad <= 3)%Z)
    /\ Optimizer.total Enrichment.cost squad <= 100 + eps
    /\ 99 - eps <= Optimizer.total Enrichment.cost squad
    /\ Z.of_nat
         (List.length
            (filter (fun r => Optimizer.is_role (Enrichment.pos r)) squad))
       = 15%Z
    /\ (Forall (fun r => Optimizer.is_role (Enrichment.pos r) = true) squad ->
        Z.of_nat (List.length squad) = 15%Z).
Proof.
  intros _ He Htol _ Hst.
  exists (Optimizer.pick (LP.rounded (solve (Optimizer.build players)))
            players).
  pose proof (ToleranceFacts.solved_squad_valid_within eps solve players
                He Htol Hst) as [Hle [Hge [Hs Ht]]].
  rewrite SolverFacts.budget_ceiling in Hle.
  rewrite SolverFacts.budget_floor in Hge.
  pose proof (ToleranceFacts.structure_role_rows _ Hs) as Hroles.
  split.
  { now rewrite (ToleranceFacts.optimize_squad_tolerant eps solve players
                   Htol Hst). }
  repeat split; try assumption; try (apply Hs; simpl; tauto).
  intros Hall. now rewrite (SolverFacts.filter_all _ _ Hall) in Hroles.
Qed.

(** The fifteen-row sample, solved to within a ten-millionth. *)
Lemma solved_squad_meets_constraints_witness :
  exists squad,
    snd (Optimizer.optimize_squad (Tolerance.search_within Sample3.eps)
           Sample.fifteen)
    = Optimizer.Return squad
    /\ Optimizer.count_pos "GK" squad = 2%Z
    /\ Optimizer.count_pos "DEF" squad = 5%Z
    /\ Optimizer.count_pos "MID" squad = 5%Z
    /\ Optimizer.count_pos "FWD" squad = 3%Z
    /\ (forall t, (Optimizer.count_team t squad <= 3)%Z)
    /\ Optimizer.total Enrichment.cost squad <= 100 + Sample3.eps
    /\ 99 - Sample3.eps <= Optimizer.total Enrichment.cost squad
    /\ Z.of_nat
         (List.length
            (filter (fun r => Optimizer.is_role (Enrichment.pos r)) squad))
       = 15%Z
    /\ (Forall (fun r => Optimizer.is_role (Enrichment.pos r) = true) squad ->
        Z.of_nat (List.length squad) = 15%Z).
Proof.
  apply (solved_squad_meets_constraints Sample3.eps
           (Tolerance.search_within Sample3.eps) Sample.fifteen).
  - vm_compute. discriminate.
  - vm_compute. reflexivity.
  - apply ToleranceFacts.search_within_tolerant.
  - repeat constructor.
  - apply (ToleranceFacts.search_within_complete _ _ (fun _ => true)).
    vm_compute. reflexivity.
Defined.

(** C1 as stated fails twice.  On the sixteen-row sample an exact back
    end reports [Optimal] and the script returns all sixteen rows, one
    more than the per-role counts add up to.  On the fifteen rows costing
    6.2 and fourteen times 6.7, which no selection fits exactly, a back
    end working to a ten-millionth reports [Optimal] and the script
    returns all fifteen, at a cost above 100. *)
Lemma squad_exceeds_size_and_budget :
  (LP.exact LP.search
   /\ LP.sol_status (LP.search (Optimizer.build Sample.sixteen))
      = LP.LpStatusOptimal
   /\ snd (Optimizer.optimize_squad LP.search Sample.sixteen)
      = Optimizer.Return Sample.sixteen
   /\ Z.of_nat (List.length Sample.sixteen) = 16%Z
   /\ Optimizer.required_size = 15%Z)
  /\ (Tolerance.tolerant Sample3.eps (Tolerance.search_within Sample3.eps)
      /\ Tolerance.finite_cells Sample3.overspent
      /\ LP.sol_status
           (Tolerance.search_within Sample3.eps
              (Optimizer.build Sample3.overspent))
         = LP.LpStatusOptimal
      /\ snd (Optimizer.optimize_squad (Tolerance.search_within Sample3.eps)
                Sample3.overspent)
         = Optimizer.Return Sample3.overspent
      /\ 100 < Optimizer.total Enrichment.cost Sample3.overspent
      /\ (forall x : LP.assignment,
            LP.feasible x (Optimizer.build Sample3.overspent) = true ->
            False)).
Proof.
  assert (H16 : LP.sol_status (LP.search (Optimizer.build Sample.sixteen))
                = LP.LpStatusOptimal)
    by exact (SolverFacts.search_complete _ _ SolverFacts.sixteen_feasible).
  assert (Hover : 100 < Optimizer.total Enrichment.cost Sample3.overspent)
    by (apply Qlt_bool_true; vm_compute; reflexivity).
  assert (H15 : LP.sol_status
                  (Tolerance.search_within Sample3.eps
                     (Optimizer.build Sample3.overspent))
                = LP.LpStatusOptimal).
  { apply (ToleranceFacts.search_within_complete _ _ (fun _ => true)).
    vm_compute. reflexivity. }
  split.
  - split; [exact LPFacts.search_exact|]. split; [exact H16|].
    split; [|split; reflexivity].
    exact (SolverFacts.sixteen_all_selected LP.search LPFacts.search_exact
             H16).
  - split; [apply ToleranceFacts.search_within_tolerant|].
    split; [repeat constructor|]. split; [exact H15|].
    split; [|split; [exact Hover|]].
    + apply (ToleranceFacts.full_frame_forced Sample3.eps);
        [vm_compute; reflexivity
        |apply ToleranceFacts.search_within_tolerant
        |exact H15|reflexivity].
    + intros x Hx. apply OptimizerFacts.feasible_iff_valid in Hx.
      destruct Hx as [[Hle _] [Hs _]].
      rewrite (ToleranceFacts.structure_takes_all x Sample3.overspent Hs
                 eq_refl) in Hle.
      rewrite SolverFacts.budget_ceiling in Hle. lra.
Qed.

(** C3, amended: when no selection of input rows is a valid squad, the
    script raises nothing that names infeasibility: it returns a selection
    of rows that is not a valid squad (it may be empty or partial) or
    stops on a missing variable value; before that it prints one warning
    line naming the solver status exactly when that status is not
    [Optimal], which is the case whenever the back end works to a
    tolerance within which no selection fits either. *)
Theorem infeasible_input_gets_no_signal
    (solve : LP.problem -> LP.solution) (players : Optimizer.frame) :
  (forall x : LP.assignment,
     ~ Optimizer.valid_squad (Optimizer.pick x players)) ->
  (snd (Optimizer.optimize_squad solve players)
   = Optimizer.Raise Optimizer.TypeError
   \/ exists x : LP.assignment,
        snd (Optimizer.optimize_squad solve players)
        = Optimizer.Return (Optimizer.pick x players)
        /\ ~ Optimizer.valid_squad (Optimizer.pick x players))
  /\ ((LP.sol_status (solve (Optimizer.build players)) = LP.LpStatusOptimal
       /\ fst (Optimizer.optimize_squad solve players)
          = [ Optimizer.Solved (Optimizer.build players) ])
      \/ (LP.sol_status (solve (Optimizer.build players))
          <> LP.LpStatusOptimal
          /\ fst (Optimizer.optimize_squad solve players)
             = [ Optimizer.Solved (Optimizer.build players);
                 Optimizer.Printed
                   ("Warning: Solver status: "
                    ++ LP.LpStatus
                         (LP.sol_status
                            (solve (Optimizer.build players)))) ]))
  /\ (forall eps,
        Tolerance.tolerant eps solve ->
        (forall x : LP.assignment,
           Tolerance.feasible_within eps x (Optimizer.build players)
           = false) ->
        LP.sol_status (solve (Optimizer.build players))
        <> LP.LpStatusOptimal).
Proof.
  intros Hinf. split; [|split].
  - destruct (OptimizerFacts.optimize_squad_result solve players) as [H|H];
      [now left|right].
    eexists. split; [exact H|apply Hinf].
  - unfold Optimizer.optimize_squad. cbn [fst].
    destruct (LP.sol_status (solve (Optimizer.build players)));
      try (right; split; [discriminate|reflexivity]).
    left. now split.
  - intros eps Htol Hnone Hst.
    destruct (Htol _ Hst) as [_ Hf]. rewrite Hnone in Hf. discriminate.
Qed.

(** One goalkeeper alone, with a back end that says so. *)
Lemma infeasible_input_gets_no_signal_witness :
  (snd (Optimizer.optimize_squad Sample3.stuck Sample.lone_keeper)
   = Optimizer.Raise Optimizer.TypeError
   \/ exists x : LP.assignment,
        snd (Optimizer.optimize_squad Sample3.stuck Sample.lone_keeper)
        = Optimizer.Return (Optimizer.pick x Sample.lone_keeper)
        /\ ~ Optimizer.valid_squad (Optimizer.pick x Sample.lone_keeper))
  /\ ((LP.sol_status (Sample3.stuck (Optimizer.build Sample.lone_keeper))
       = LP.LpStatusOptimal
       /\ fst (Optimizer.optimize_squad Sample3.stuck Sample.lone_keeper)
          = [ Optimizer.Solved (Optimizer.build Sample.lone_keeper) ])
      \/ (LP.sol_status (Sample3.stuck (Optimizer.build Sample.lone_keeper))
          <> LP.LpStatusOptimal
          /\ fst (Optimizer.optimize_squad Sample3.stuck Sample.lone_keeper)
             = [ Optimizer.Solved (Optimizer.build Sample.lone_keeper);
                 Optimizer.Printed
                   ("Warning: Solver status: "
                    ++ LP.LpStatus
                         (LP.sol_status
                            (Sample3.stuck
                               (Optimizer.build Sample.lone_keeper)))) ]))
  /\ (forall eps,
        Tolerance.tolerant eps Sample3.stuck ->
        (forall x : LP.assignment,
           Tolerance.feasible_within eps x
             (Optimizer.build Sample.lone_keeper) = false) ->
        LP.sol_status (Sample3.stuck (Optimizer.build Sample.lone_keeper))
        <> LP.LpStatusOptimal).
Proof.
  exact (infeasible_input_gets_no_signal Sample3.stuck Sample.lone_keeper
           SolverFacts.lone_keeper_infeasible).
Defined.

(** C3 as stated fails: one goalkeeper alone admits no valid squad; with a
    back end that reports [Infeasible] and leaves the keeper's value at 1
    the script prints its warning and returns the keeper as a squad, and
    whatever the back end answers the outcome is that partial squad, an
    empty one, or a [TypeError]. *)
Lemma lone_keeper_gets_no_signal :
  (forall x : LP.assignment,
     ~ Optimizer.valid_squad (Optimizer.pick x Sample.lone_keeper))
  /\ Optimizer.optimize_squad Sample3.stuck Sample.lone_keeper
     = ([ Optimizer.Solved (Optimizer.build Sample.lone_keeper);
          Optimizer.Printed "Warning: Solver status: Infeasible" ],
        Optimizer.Return Sample.lone_keeper)
  /\ (forall solve,
        snd (Optimizer.optimize_squad solve Sample.lone_keeper)
        = Optimizer.Raise Optimizer.TypeError
        \/ snd (Optimizer.optimize_squad solve Sample.lone_keeper)
           = Optimizer.Return []
        \/ snd (Optimizer.optimize_squad solve Sample.lone_keeper)
           = Optimizer.Return Sample.lone_keeper).
Proof.
  split; [exact SolverFacts.lone_keeper_infeasible|].
  split; [vm_compute; reflexivity|].
  intros solve.
  destruct (OptimizerFacts.optimize_squad_result solve Sample.lone_keeper)
    as [H|H]; [now left|right].
  rewrite H. unfold Optimizer.pick, Optimizer.items. simpl.
  destruct (LP.rounded _ 0%nat); simpl; [now right|now left].
Qed.

(** ** Presentation *)

Module PresentationFacts.

Import Enrichment Presentation.

Lemma item_pos_order (p : string) :
  Py.item pos_order p
  = if p =? "GK" then Some 0%nat
    else if p =? "DEF" then Some 1%nat
    else if p =? "MID" then Some 2%nat
    else if p =? "FWD" then Some 3%nat
    else None.
Proof.
  unfold pos_order. cbn [Py.item].
  now rewrite (String.eqb_sym "GK"), (String.eqb_sym "DEF"),
    (String.eqb_sym "MID"), (String.eqb_sym "FWD").
Qed.

(** The first sort key orders positions as the role rank does. *)
Lemma key1_le_rank (p q : string) :
  key1_le (Py.item pos_order p) (Py.item pos_order q) = true
  <-> (Spec.role_rank p <= Spec.role_rank q)%nat.
Proof.
  rewrite !item_pos_order. unfold Spec.role_rank.
  destruct (p =? "GK"), (p =? "DEF"), (p =? "MID"), (p =? "FWD"),
    (q =? "GK"), (q =? "DEF"), (q =? "MID"), (q =? "FWD");
    simpl; split; intros H; try reflexivity; try discriminate; lia.
Qed.

Ltac split_keys :=
  unfold key1_eq, key1_le;
  repeat match goal with
         | |- context [(?m <=? ?n)%nat] =>
             destruct (Nat.leb_spec m n) as [?Hle|?Hlt]
         end;
  simpl.

(** Of two cells one is not listed after the other. *)
Lemma key2_total (a b : cell) : key2_ge a b = false -> key2_ge b a = true.
Proof.
  destruct a as [| |p|], b as [| |q|]; simpl; intros H;
    try discriminate; try reflexivity.
  apply Qle_bool_iff, Qlt_le_weak, Qnot_le_lt.
  intros Hq. apply Qle_bool_iff in Hq. congruence.
Qed.

Lemma key2_trans (a b c : cell) :
  key2_ge a b = true -> key2_ge b c = true -> key2_ge a c = true.
Proof.
  destruct a as [| |p|], b as [| |q|], c as [| |r|]; simpl; intros H1 H2;
    try discriminate; try reflexivity.
  apply Qle_bool_iff in H1, H2. apply Qle_bool_iff.
  now apply Qle_trans with q.
Qed.

Lemma key2_not_lower (a b : cell) : key2_ge a b = true -> Spec.not_lower a b.
Proof.
  destruct a as [| |p|], b as [| |q|]; simpl; intros H;
    try discriminate; try exact I.
  now apply Qle_bool_iff.
Qed.

Lemma before_total (a b : row) :
  before a b = false -> before b a = true.
Proof.
  unfold before, keys.
  destruct (Py.item pos_order (pos a)) as [m|],
           (Py.item pos_order (pos b)) as [n|];
    split_keys; intros Hab; try discriminate; try reflexivity; try lia;
    now apply key2_total.
Qed.

Lemma before_trans (a b c : row) :
  before a b = true -> before b c = true -> before a c = true.
Proof.
  unfold before, keys.
  destruct (Py.item pos_order (pos a)) as [m|],
           (Py.item pos_order (pos b)) as [n|],
           (Py.item pos_order (pos c)) as [k|];
    split_keys; intros H1 H2; try discriminate; try reflexivity; try lia;
    now apply key2_trans with (read (total_points b)).
Qed.

Lemma before_listed (a b : row) :
  before a b = true -> Spec.listed_before a b.
Proof.
  intros H. split.
  - apply key1_le_rank. revert H. unfold before, keys.
    destruct (key1_eq _ _) eqn:He; [|tauto].
    unfold key1_eq in He. apply andb_true_iff in He. tauto.
  - intros Hp. revert H. unfold before, keys. rewrite Hp.
    assert (He : forall o, key1_eq o o = true).
    { intros [n|]; unfold key1_eq; simpl; [|reflexivity].
      now rewrite Nat.leb_refl. }
    rewrite He. apply key2_not_lower.
Qed.

Lemma insert_perm (r : row) (l : list row) :
  Permutation (r :: l) (insert r l).
Proof.
  induction l as [|h t IH]; simpl; [reflexivity|].
  destruct (before r h); [reflexivity|].
  rewrite perm_swap. now apply perm_skip.
Qed.

Lemma sort_values_perm (l : list row) : Permutation l (sort_values l).
Proof.
  induction l as [|r t IH]; simpl; [constructor|].
  rewrite <- insert_perm. now apply perm_skip.
Qed.

Lemma insert_sorted (r : row) (l : list row) :
  StronglySorted in_order l -> StronglySorted in_order (insert r l).
Proof.
  induction 1 as [|h t Hs IH Hall]; simpl.
  - constructor; constructor.
  - destruct (before r h) eqn:Hrh.
    + constructor; [now constructor|].
      constructor; [exact Hrh|].
      eapply Forall_impl; [|exact Hall].
      intros y Hy. now apply (before_trans r h y).
    + constructor; [exact IH|].
      apply (Permutation_Forall (insert_perm r t)).
      constructor; [now apply before_total|exact Hall].
Qed.

Lemma sort_values_sorted (l : list row) :
  StronglySorted in_order (sort_values l).
Proof.
  induction l as [|r t IH]; simpl; [constructor|].
  now apply insert_sorted.
Qed.

Lemma StronglySorted_weaken {A : Type} (R S : A -> A -> Prop)
    (l : list A) :
  (forall a b, R a b -> S a b) ->
  StronglySorted R l -> StronglySorted S l.
Proof.
  intros HRS. induction 1 as [|h t Hs IH Hall]; constructor.
  - exact IH.
  - eapply Forall_impl; [|exact Hall]. intros y. apply HRS.
Qed.

End PresentationFacts.

(** C8: the printed listing holds the squad's rows, with goalkeepers before
    defenders before midfielders before forwards, and rows of the same
    position in descending order of projected points: plus infinity
    first, minus infinity after the numbers, missing points (NaN) last. *)
Theorem listing_grouped_and_ranked (squad : list Enrichment.row) :
  Permutation squad (Presentation.listing squad)
  /\ StronglySorted Spec.listed_before (Presentation.listing squad).
Proof.
  split.
  - apply PresentationFacts.sort_values_perm.
  - apply (PresentationFacts.StronglySorted_weaken Presentation.in_order).
    + exact PresentationFacts.before_listed.
    + apply PresentationFacts.sort_values_sorted.
Qed.

(** * Further properties of the script *)

(** ** Requests with retries *)

Module HttpFacts.

Import Http.

Lemma accepted_some (a : attempt) (resp : response) :
  accepted a = Some resp -> a = Answered resp /\ status_code resp = 200%Z.
Proof.
  destruct a as [|r]; simpl; [discriminate|].
  destruct (status_code r =? 200)%Z eqn:Hs; [|discriminate].
  intros H. injection H as <-. apply Z.eqb_eq in Hs. now split.
Qed.

(** What the loop returns and sleeps, from iteration [i] on. *)
Lemma try_from_spec (net : network) (left : nat) :
  forall i,
    match try_from net i left with
    | (Some resp, sleeps) =>
        exists k, (k < left)%nat
                  /\ accepted (net (i + k)%nat) = Some resp
                  /\ (forall j, (j < k)%nat ->
                                accepted (net (i + j)%nat) = None)
                  /\ sleeps = map pause (seq i k)
    | (None, sleeps) =>
        (forall j, (j < left)%nat -> accepted (net (i + j)%nat) = None)
        /\ sleeps = map pause (seq i left)
    end.
Proof.
  induction left as [|left IH]; intros i; simpl.
  - split; [intros j Hj; lia|reflexivity].
  - destruct (accepted (net i)) as [resp|] eqn:Hi.
    + exists 0%nat. rewrite Nat.add_0_r.
      repeat split; [lia|exact Hi|intros j Hj; lia].
    + specialize (IH (S i)).
      destruct (try_from net (S i) left) as [[resp|] sleeps].
      * destruct IH as [k [Hk [Hok [Hbefore ->]]]].
        exists (S k). rewrite Nat.add_succ_r. repeat split.
        -- lia.
        -- exact Hok.
        -- intros [|j] Hj; [now rewrite Nat.add_0_r|].
           rewrite Nat.add_succ_r. apply Hbefore. lia.
      * destruct IH as [Hnone ->]. split; [|reflexivity].
        intros [|j] Hj; [now rewrite Nat.add_0_r|].
        rewrite Nat.add_succ_r. apply Hnone. lia.
Qed.

Lemma slept_pauses (n : nat) :
  forall i,
    slept (map pause (seq i n))
    = (Z.of_nat n * (Z.of_nat n + 2 * Z.of_nat i))%Z.
Proof.
  induction n as [|n IH]; intros i; [reflexivity|].
  cbn [seq map slept fold_right]. fold (slept (map pause (seq (S i) n))).
  rewrite IH. unfold pause. rewrite !Nat2Z.inj_succ. ring.
Qed.

End HttpFacts.

(** X1: when [try_request] returns a response, it is the answer of the
    first attempt that came back with status 200, and the pauses before it
    were 1, 3, 5, ... seconds, together the square of the number of
    failed attempts. *)
Theorem try_request_returns_first_ok (net : Http.network) (retries : nat)
    (resp : Http.response) (sleeps : list Z) :
  Http.try_request net retries = (Some resp, sleeps) ->
  Http.status_code resp = 200%Z
  /\ exists k, (k < retries)%nat
               /\ net k = Http.Answered resp
               /\ (forall j, (j < k)%nat -> Http.accepted (net j) = None)
               /\ sleeps = map Http.pause (seq 0 k)
               /\ Http.slept sleeps = (Z.of_nat k * Z.of_nat k)%Z.
Proof.
  intros H. pose proof (HttpFacts.try_from_spec net retries 0) as Hs.
  unfold Http.try_request in H. rewrite H in Hs.
  destruct Hs as [k [Hk [Hok [Hbefore ->]]]]. simpl in Hok.
  apply HttpFacts.accepted_some in Hok. destruct Hok as [Hnet Hst].
  split; [exact Hst|]. exists k. repeat split; try assumption.
  rewrite HttpFacts.slept_pauses. simpl Z.of_nat. ring.
Qed.

(** Two refusals, then the page: returned after pauses of 1 and 3 seconds. *)
Lemma try_request_returns_first_ok_witness :
  Http.status_code (Http.mkResponse 200 "page") = 200%Z
  /\ exists k, (k < 3)%nat
               /\ Sample2.flaky k = Http.Answered (Http.mkResponse 200 "page")
               /\ (forall j, (j < k)%nat ->
                             Http.accepted (Sample2.flaky j) = None)
               /\ [1; 3]%Z = map Http.pause (seq 0 k)
               /\ Http.slept [1; 3]%Z = (Z.of_nat k * Z.of_nat k)%Z.
Proof.
  apply (try_request_returns_first_ok Sample2.flaky 3
           (Http.mkResponse 200 "page") [1; 3]%Z).
  reflexivity.
Defined.

(** X2: [try_request] returns [None] exactly when none of its [retries]
    attempts came back with status 200. *)
Theorem try_request_gives_up_iff (net : Http.network) (retries : nat) :
  fst (Http.try_request net retries) = None
  <-> (forall j, (j < retries)%nat -> Http.accepted (net j) = None).
Proof.
  pose proof (HttpFacts.try_from_spec net retries 0) as Hs.
  unfold Http.try_request.
  destruct (Http.try_from net 0 retries) as [[resp|] sleeps]; simpl.
  - destruct Hs as [k [Hk [Hok _]]]. simpl in Hok. split; [discriminate|].
    intros Hnone. rewrite (Hnone k Hk) in Hok. discriminate.
  - destruct Hs as [Hnone _]. split; [|reflexivity].
    intros _ j Hj. exact (Hnone j Hj).
Qed.

(** X3: when [try_request] gives up it has slept after every attempt, the
    last one included: 1, 3, 5, ... seconds, together [retries] squared. *)
Theorem try_request_pauses_when_giving_up (net : Http.network)
    (retries : nat) :
  fst (Http.try_request net retries) = None ->
  snd (Http.try_request net retries) = map Http.pause (seq 0 retries)
  /\ Http.slept (snd (Http.try_request net retries))
     = (Z.of_nat retries * Z.of_nat retries)%Z.
Proof.
  pose proof (HttpFacts.try_from_spec net retries 0) as Hs.
  unfold Http.try_request.
  destruct (Http.try_from net 0 retries) as [[resp|] sleeps]; simpl;
    [discriminate|].
  intros _. destruct Hs as [_ ->]. split; [reflexivity|].
  rewrite HttpFacts.slept_pauses. simpl Z.of_nat. ring.
Qed.

(** A site that never answers costs the default three attempts 9 seconds. *)
Lemma try_request_pauses_when_giving_up_witness :
  snd (Http.try_request Sample2.down 3) = map Http.pause (seq 0 3)
  /\ Http.slept (snd (Http.try_request Sample2.down 3)) = (3 * 3)%Z.
Proof.
  apply (try_request_pauses_when_giving_up Sample2.down 3). reflexivity.
Defined.

(** ** Reading statistics off a page *)

Module ScrapeFacts.

Import Scrape.

Lemma digits_value_nonneg (l : list ascii) :
  forall acc,
    (0 <= acc)%Z ->
    (0 <= fold_left (fun acc c => (10 * acc + digit_value c)%Z) l acc)%Z.
Proof.
  induction l as [|c t IH]; cbn [fold_left]; intros acc Hacc; [exact Hacc|].
  apply IH. unfold digit_value. lia.
Qed.

Lemma int_nonneg (s : string) (v : Z) : int s = Some v -> (0 <= v)%Z.
Proof.
  unfold int. destruct (list_ascii_of_string s) as [|c t]; [discriminate|].
  destruct (forallb is_decimal (c :: t) && _); [|discriminate].
  intros H. injection H as <-.
  apply (digits_value_nonneg (c :: t) 0%Z). lia.
Qed.

Lemma decimal_is_digit (c : ascii) : is_decimal c = true -> is_digit c = true.
Proof. unfold is_digit. now intros ->. Qed.

(** A cell with a character that is no digit, a dot say, does not
    convert. *)
Lemma int_of_dotted (s : string) : isdigit s = false -> int s = None.
Proof.
  unfold int, isdigit.
  destruct (list_ascii_of_string s) as [|c t]; [reflexivity|].
  intros H.
  destruct (forallb is_decimal (c :: t)) eqn:Hd; [|reflexivity].
  exfalso. rewrite forallb_forall in Hd.
  assert (Hall : forallb is_digit (c :: t) = true).
  { apply forallb_forall. intros x Hx. now apply decimal_is_digit, Hd. }
  congruence.
Qed.

Lemma int_from_end_nonneg (l : list string) (k : nat) (v : Z) :
  int_from_end l k = Some v -> (0 <= v)%Z.
Proof.
  unfold int_from_end. destruct (k <=? List.length l)%nat.
  - destruct (from_end l k) as [c|]; [apply int_nonneg|discriminate].
  - intros H. injection H as <-. lia.
Qed.



Lemma filter_all_true {A : Type} (f : A -> bool) (l : list A) :
  Forall (fun a => f a = true) (filter f l).
Proof.
  apply Forall_forall. intros a Ha. now apply filter_In in Ha.
Qed.

Lemma from_end_last_three (front : list string) (g a m : string) :
  from_end (front ++ [g; a; m]) 3 = Some g
  /\ from_end (front ++ [g; a; m]) 2 = Some a
  /\ from_end (front ++ [g; a; m]) 1 = Some m.
Proof. unfold from_end. rewrite rev_app_distr. now repeat split. Qed.


Lemma prefix_app (n b : string) : String.prefix n (n ++ b) = true.
Proof.
  induction n as [|c n IH]; simpl; [now destruct b|].
  now destruct (ascii_dec c c).
Qed.

Lemma contains_prefix (n h : string) :
  String.prefix n h = true -> contains n h = true.
Proof. intros H. destruct h; cbn [contains]; now rewrite H. Qed.

(** A text that holds [n] anywhere passes the test [n in text]. *)
Lemma contains_middle (n a b : string) : contains n (a ++ n ++ b) = true.
Proof.
  induction a as [|c a IH].
  - cbn [append]. apply contains_prefix, prefix_app.
  - cbn [append contains]. rewrite IH. apply orb_true_r.
Qed.

Lemma season_first_year : before_slash SEASON = "2025".
Proof. reflexivity. Qed.

End ScrapeFacts.

(** X4: in [parse_transfermarkt], when one of the last three numeric cells
    of the season row does not convert (it is written with a dot, as in
    2.431 minutes, holds a superscript digit, or has more than 4300
    digits), the bare [except] sets goals, assists and minutes all to 0. *)
Theorem unreadable_cell_zeroes_the_record (cols : list string) (k : nat)
    (c : string) :
  (1 <= k <= 3)%nat ->
  (k <= List.length (Scrape.numeric_cells cols))%nat ->
  Scrape.from_end (Scrape.numeric_cells cols) k = Some c ->
  Scrape.int c = None ->
  Scrape.numbers cols = (0, 0, 0)%Z.
Proof.
  intros Hk Hlen Hc Hbad.
  assert (Hnone : Scrape.int_from_end (Scrape.numeric_cells cols) k = None).
  { unfold Scrape.int_from_end.
    apply Nat.leb_le in Hlen. now rewrite Hlen, Hc. }
  unfold Scrape.numbers.
  assert (Hcases : k = 1%nat \/ k = 2%nat \/ k = 3%nat) by lia.
  destruct Hcases as [ -> | [ -> | -> ] ]; rewrite ?Hnone;
    repeat (destruct (Scrape.int_from_end _ _); try reflexivity);
    congruence.
Qed.

(** The sample row: 12 goals and 7 assists are lost to "2.431". *)
Lemma unreadable_cell_zeroes_the_record_witness :
  Scrape.numbers (Scrape.tr_cells Sample2.season_row) = (0, 0, 0)%Z.
Proof.
  apply (unreadable_cell_zeroes_the_record
           (Scrape.tr_cells Sample2.season_row) 1 "2.431").
  - lia.
  - vm_compute. lia.
  - reflexivity.
  - reflexivity.
Defined.

(** X5: when the last three numeric cells of the season row are plain
    digit strings, [parse_transfermarkt] reads goals, assists and minutes
    from them, in that order, whatever the cells before them hold. *)
Theorem last_three_cells_are_read (cols front : list string)
    (g a m : string) (vg va vm : Z) :
  Scrape.numeric_cells cols = front ++ [g; a; m] ->
  Scrape.int g = Some vg ->
  Scrape.int a = Some va ->
  Scrape.int m = Some vm ->
  Scrape.numbers cols = (vg, va, vm).
Proof.
  intros Hn Hg Ha Hm. unfold Scrape.numbers, Scrape.int_from_end.
  rewrite Hn.
  destruct (ScrapeFacts.from_end_last_three front g a m) as [-> [-> ->]].
  rewrite length_app. cbn [List.length].
  replace (3 <=? List.length front + 3)%nat with true
    by (symmetry; apply Nat.leb_le; lia).
  replace (2 <=? List.length front + 3)%nat with true
    by (symmetry; apply Nat.leb_le; lia).
  replace (1 <=? List.length front + 3)%nat with true
    by (symmetry; apply Nat.leb_le; lia).
  now rewrite Hg, Ha, Hm.
Qed.

Lemma last_three_cells_are_read_witness :
  Scrape.numbers (Scrape.tr_cells Sample2.clean_row) = (12, 7, 2431)%Z.
Proof.
  apply (last_three_cells_are_read
           (Scrape.tr_cells Sample2.clean_row) ["30"] "12" "7" "2431");
    reflexivity.
Defined.

(** X6: the record [parse_transfermarkt] builds from a season row never
    holds a negative count. *)
Theorem transfermarkt_counts_not_negative (r : Scrape.tr) :
  (0 <= Scrape.goals (Scrape.row_stats r))%Z
  /\ (0 <= Scrape.assists (Scrape.row_stats r))%Z
  /\ (0 <= Scrape.minutes (Scrape.row_stats r))%Z.
Proof.
  unfold Scrape.row_stats, Scrape.numbers.
  destruct (Scrape.int_from_end _ 3) as [g|] eqn:Hg; [|simpl; lia].
  destruct (Scrape.int_from_end _ 2) as [a|] eqn:Ha; [|simpl; lia].
  destruct (Scrape.int_from_end _ 1) as [m|] eqn:Hm; [|simpl; lia].
  apply ScrapeFacts.int_from_end_nonneg in Hg, Ha, Hm. simpl. lia.
Qed.



(** A superscript two passes [isdigit] and stops the parser. *)
Example fbref_stops_on_superscript :
  Scrape.isdigit Sample2.squared = true
  /\ Scrape.int Sample2.squared = None
  /\ Scrape.parse_fbref
       (Some [ Scrape.mkTable "Standard Stats"
                 [ Scrape.mkTr "2025-2026"
                     ["31"; "14"; "6"; Sample2.squared; "20"; "2"] None ] ])
     = Scrape.ValueError
  /\ Scrape.numbers ["30"; "12"; "7"; "2431"; Sample2.squared]
     = (0, 0, 0)%Z.
Proof. repeat split. Qed.

(** X8: [parse_fbref] tests a row for the season by looking for "2025"
    anywhere in its text, so in a table mentioning "Standard" a first row
    labelled 2024-2025 is the one whose numbers are returned. *)
Theorem fbref_takes_first_row_holding_2025
    (t1 t2 pre post : string) (cells : list string) (link : option string)
    (rest : list Scrape.tr) (others : list Scrape.table) :
  Scrape.parse_fbref
    (Some (Scrape.mkTable (t1 ++ "Standard" ++ t2)
             (Scrape.mkTr (pre ++ "2025" ++ post) cells link :: rest)
           :: others))
  = Scrape.fbref_row (Scrape.mkTr (pre ++ "2025" ++ post) cells link).
Proof.
  cbn [Scrape.parse_fbref Scrape.fbref_tables Scrape.tb_text Scrape.tb_rows
       find Scrape.tr_text].
  rewrite ScrapeFacts.contains_middle, ScrapeFacts.season_first_year.
  now rewrite ScrapeFacts.contains_middle.
Qed.

Example fbref_reads_last_season :
  Scrape.parse_fbref (Some Sample2.fbref_page)
  = Scrape.Returns (Some (Scrape.mkScraped "Unknown (FBref)" 9 9 0)).
Proof. reflexivity. Qed.

(** ** The cache and the enrichment pass *)

Module CacheFacts.

Import Enrichment.

Section Web.

Variable fetch_tm_stats : string -> option stats.
Variable fetch_fbref_stats : string -> option stats.

Let scrape := scrape fetch_tm_stats fetch_fbref_stats.
Let enrich_single := enrich_single fetch_tm_stats fetch_fbref_stats.

Lemma first_source_names (l : list (string * (string -> option stats)))
    (player_name web_name_ : string) (r : record) :
  first_source l player_name web_name_ = Some r ->
  fpl_name r = player_name /\ source_name r = web_name_.
Proof.
  induction l as [|[src fn] t IH]; simpl; [discriminate|].
  destruct (fn player_name) as [s|]; [|exact IH].
  intros H. injection H as <-. now split.
Qed.

(** A fresh record carries the names it was looked up under. *)
Lemma scrape_names (player_name web_name_ : string) :
  fpl_name (scrape player_name web_name_) = player_name
  /\ source_name (scrape player_name web_name_) = web_name_.
Proof.
  subst scrape. unfold Enrichment.scrape.
  destruct (first_source _ _ _) as [r|] eqn:Hr; [|now split].
  now apply first_source_names in Hr.
Qed.

Lemma cache_hit_appended (c : cache) (r : record)
    (player_name web_name_ : string) :
  cache_hit c player_name web_name_ = None ->
  fpl_name r = player_name ->
  cache_hit (c ++ [r]) player_name web_name_ = Some r.
Proof.
  unfold cache_hit. intros Hmiss Hname.
  induction c as [|h t IH]; simpl in *.
  - now rewrite Hname, String.eqb_refl.
  - destruct ((fpl_name h =? player_name) || (source_name h =? web_name_));
      [discriminate|now apply IH].
Qed.

Lemma enrich_single_has_league (r : row) (c : cache) :
  exists l, ext_league (enrich_single r c) = Some l.
Proof.
  subst enrich_single. unfold Enrichment.enrich_single.
  destruct (ext_league r) as [l|] eqn:Hl; [now exists l|].
  destruct (Estimator.weight_stats _ _ _). eexists. reflexivity.
Qed.

End Web.

Lemma enrich_single_settled
    (fetch_tm_stats fetch_fbref_stats : string -> option stats)
    (r : row) (c : cache) (l : string) :
  ext_league r = Some l ->
  enrich_single fetch_tm_stats fetch_fbref_stats r c = r.
Proof. intros H. unfold enrich_single. now rewrite H. Qed.

End CacheFacts.




(** X9: [get_external] only ever appends to the cache, at most one record
    per call; the record it returns is the one the cache serves for that
    player afterwards, so calling it again changes nothing and returns the
    same record. *)
Theorem get_external_caches_its_answer
    (fetch_tm_stats fetch_fbref_stats : string -> option Enrichment.stats)
    (player_name web_name_ : string) (c : Enrichment.cache)
    (f : Enrichment.file) :
  let call :=
    Enrichment.get_external fetch_tm_stats fetch_fbref_stats
      player_name web_name_ in
  let answer := fst (fst (call c f)) in
  let c' := snd (fst (call c f)) in
  let f' := snd (call c f) in
  (exists added, c' = c ++ added /\ (List.length added <= 1)%nat)
  /\ Enrichment.cache_hit c' player_name web_name_ = Some answer
  /\ call c' f' = (answer, c', f').
Proof.
  intros call answer c' f'. subst call answer c' f'.
  unfold Enrichment.get_external.
  destruct (Enrichment.cache_hit c player_name web_name_) as [r|] eqn:Hhit;
    cbn [fst snd].
  - split; [exists []; rewrite app_nil_r; split; [reflexivity|simpl; lia]|].
    split; [exact Hhit|]. now rewrite Hhit.
  - pose proof (CacheFacts.scrape_names fetch_tm_stats fetch_fbref_stats
                  player_name web_name_) as [Hname _].
    pose proof (CacheFacts.cache_hit_appended c _ player_name web_name_
                  Hhit Hname) as Hnew.
    split; [eexists; split; [reflexivity|simpl; lia]|].
    split; [exact Hnew|]. now rewrite Hnew.
Qed.

(** X10: [enrich] leaves a frame unchanged when every row of it carries a
    league attribution, whatever the cache holds and the sites answer; so
    a second pass over an enriched frame whose rows all received one
    changes nothing. *)
Theorem enrich_again_changes_nothing
    (fetch_tm_stats fetch_fbref_stats : string -> option Enrichment.stats)
    (f : Enrichment.file) (players : list Enrichment.row) :
  Forall (fun r => exists l, Enrichment.ext_league r = Some l) players ->
  fst (Enrichment.enrich fetch_tm_stats fetch_fbref_stats f players)
  = players.
Proof.
  intros Hall. unfold Enrichment.enrich. cbn [fst].
  induction Hall as [|r t [l Hl] _ IH]; simpl; [reflexivity|].
  now rewrite IH, (CacheFacts.enrich_single_settled _ _ r _ l Hl).
Qed.

(** The sample signing after a first pass, passed again with no site
    answering. *)
Lemma enrich_again_changes_nothing_witness :
  fst (Enrichment.enrich Sample.fbref Sample.fbref (Some [Sample.cached])
         (fst (Enrichment.enrich Sample.tm Sample.fbref None
                 [Sample.signing])))
  = fst (Enrichment.enrich Sample.tm Sample.fbref None [Sample.signing]).
Proof.
  apply (enrich_again_changes_nothing Sample.fbref Sample.fbref
           (Some [Sample.cached])
           (fst (Enrichment.enrich Sample.tm Sample.fbref None
                   [Sample.signing]))).
  repeat constructor. eexists. reflexivity.
Defined.

(** X11: enrichment keeps one row per player, in order, and never touches
    a player's name, web name, position, team or cost; a row that came
    with a league attribution is returned unchanged. *)
Theorem enrich_keeps_the_players
    (fetch_tm_stats fetch_fbref_stats : string -> option Enrichment.stats)
    (f : Enrichment.file) (players : list Enrichment.row) :
  Forall2
    (fun r r' =>
       Enrichment.name r' = Enrichment.name r
       /\ Enrichment.web_name r' = Enrichment.web_name r
       /\ Enrichment.pos r' = Enrichment.pos r
       /\ Enrichment.team r' = Enrichment.team r
       /\ Enrichment.cost r' = Enrichment.cost r
       /\ (forall l, Enrichment.ext_league r = Some l -> r' = r))
    players
    (fst (Enrichment.enrich fetch_tm_stats fetch_fbref_stats f players)).
Proof.
  unfold Enrichment.enrich. cbn [fst].
  induction players as [|r t IH]; simpl; constructor; [|exact IH].
  split; [|split; [|split; [|split; [|split]]]];
    try (unfold Enrichment.enrich_single;
         destruct (Enrichment.ext_league r);
         [reflexivity|destruct (Estimator.weight_stats _ _ _); reflexivity]).
  intros l Hl. now apply CacheFacts.enrich_single_settled with l.
Qed.

(** X12: zero goals and zero assists give 0.0 points in every league, in
    the table or not, and for every position string. *)
Theorem no_statistics_no_points (league pos : string) :
  Estimator.estimate_fpl_pts
    (fst (Estimator.weight_stats 0 0 league))
    (snd (Estimator.weight_stats 0 0 league)) pos
  = 0%float.
Proof.
  unfold Estimator.weight_stats, Estimator.weight_stats_in,
    Estimator.estimate_fpl_pts, Py.get.
  cbn [fst snd Estimator.g_LEAGUE_DIFFICULTY Estimator.g_PL_BASE
       Estimator.module_globals].
  unfold LEAGUE_DIFFICULTY. cbn [Py.item].
  repeat match goal with
         | |- context [if (?k =? league)%string then _ else _] =>
             destruct (k =? league)%string
         end;
    destruct (pos =? "GK"), (pos =? "DEF"), (pos =? "MID"); reflexivity.
Qed.

(** X13: a player the cache does not hold and neither site knows leaves
    enrichment with 0.0 projected points and the league "Unknown",
    whatever points the feed gave him. *)
Theorem unknown_player_scores_zero
    (fetch_tm_stats fetch_fbref_stats : string -> option Enrichment.stats)
    (c : Enrichment.cache) (r : Enrichment.row) :
  Enrichment.ext_league r = None ->
  Enrichment.cache_hit c (Enrichment.lookup_name r) (Enrichment.web_name r)
  = None ->
  fetch_tm_stats (Enrichment.lookup_name r) = None ->
  fetch_fbref_stats (Enrichment.lookup_name r) = None ->
  let r' := Enrichment.enrich_single fetch_tm_stats fetch_fbref_stats r c in
  Enrichment.total_points r' = 0%float
  /\ Enrichment.estimated_points r' = Some 0%float
  /\ Enrichment.ext_league r' = Some "Unknown".
Proof.
  intros Hna Hmiss Htm Hfb r'. subst r'.
  unfold Enrichment.enrich_single, Enrichment.get_external_no_cache_update,
    Enrichment.scrape, Enrichment.sources.
  rewrite Hna, Hmiss. cbn [Enrichment.first_source]. rewrite Htm, Hfb.
  cbn [Enrichment.no_stats Enrichment.goals Enrichment.assists
       Enrichment.league].
  unfold Estimator.estimate_fpl_pts.
  destruct (Enrichment.pos r =? "GK"), (Enrichment.pos r =? "DEF"),
    (Enrichment.pos r =? "MID"); now repeat split.
Qed.

(** A midfielder with 120 points in the feed and no trace elsewhere. *)
Lemma unknown_player_scores_zero_witness :
  Enrichment.total_points
    (Enrichment.enrich_single Sample.tm Sample.fbref
       Sample2.unknown_player [Sample.cached]) = 0%float
  /\ Enrichment.estimated_points
       (Enrichment.enrich_single Sample.tm Sample.fbref
          Sample2.unknown_player [Sample.cached]) = Some 0%float
  /\ Enrichment.ext_league
       (Enrichment.enrich_single Sample.tm Sample.fbref
          Sample2.unknown_player [Sample.cached]) = Some "Unknown".
Proof.
  apply (unknown_player_scores_zero Sample.tm Sample.fbref [Sample.cached]
           Sample2.unknown_player); reflexivity.
Defined.

(** ** The name a player is looked up under *)

Module StripFacts.

Import Py Feed.

Lemma lstrip_blank (l : list ascii) :
  lstrip l = [] <-> forallb isspace l = true.
Proof.
  induction l as [|c t IH]; simpl; [tauto|].
  destruct (isspace c); simpl; [exact IH|].
  split; discriminate.
Qed.

Lemma lstrip_head (l t : list ascii) (c : ascii) :
  lstrip l = c :: t -> isspace c = false.
Proof.
  induction l as [|h l IH]; simpl; [discriminate|].
  destruct (isspace h) eqn:Hh; [exact IH|].
  intros H. injection H as <- _. exact Hh.
Qed.

Lemma lstrip_fixed (l : list ascii) : lstrip (lstrip l) = lstrip l.
Proof.
  destruct (lstrip l) as [|c t] eqn:E; [reflexivity|].
  simpl. now rewrite (lstrip_head l t c E).
Qed.

(** What [lstrip] removes is a run of white space in front. *)
Lemma lstrip_split (l : list ascii) :
  exists ws, l = ws ++ lstrip l /\ forallb isspace ws = true.
Proof.
  induction l as [|c t IH]; simpl; [now exists []|].
  destruct (isspace c) eqn:Hc; [|now exists []].
  destruct IH as [ws [Ht Hws]]. exists (c :: ws). simpl.
  rewrite Hc, Hws. split; [now f_equal|reflexivity].
Qed.

Lemma forallb_rev {A : Type} (f : A -> bool) (l : list A) :
  forallb f (rev l) = forallb f l.
Proof.
  induction l as [|a t IH]; simpl; [reflexivity|].
  rewrite forallb_app, IH. simpl. rewrite andb_true_r. apply andb_comm.
Qed.

Lemma strip_chars_blank (l : list ascii) :
  strip_chars l = [] <-> forallb isspace l = true.
Proof.
  unfold strip_chars. split.
  - intros H. apply (f_equal (@rev ascii)) in H.
    rewrite rev_involutive in H. simpl in H.
    apply lstrip_blank in H. rewrite forallb_rev in H.
    destruct (lstrip l) as [|c t] eqn:E; [now apply lstrip_blank|].
    simpl in H. now rewrite (lstrip_head l t c E) in H.
  - intros H. apply lstrip_blank in H. now rewrite H.
Qed.

(** The head of a stripped text is the head [lstrip] left. *)
Lemma strip_chars_prefix (l : list ascii) :
  exists ws, lstrip l = strip_chars l ++ ws.
Proof.
  unfold strip_chars.
  destruct (lstrip_split (rev (lstrip l))) as [ws [H _]].
  exists (rev ws). rewrite <- rev_app_distr, <- H.
  now rewrite rev_involutive.
Qed.

Lemma strip_chars_fixed (l : list ascii) :
  strip_chars (strip_chars l) = strip_chars l.
Proof.
  assert (Hfront : lstrip (strip_chars l) = strip_chars l).
  { destruct (strip_chars_prefix l) as [ws Hws].
    destruct (strip_chars l) as [|c t]; [reflexivity|].
    simpl. now rewrite (lstrip_head l (t ++ ws) c Hws). }
  unfold strip_chars at 1. rewrite Hfront.
  unfold strip_chars. now rewrite rev_involutive, lstrip_fixed.
Qed.

Lemma strip_as_chars (s : string) :
  strip s = string_of_list_ascii (strip_chars (list_ascii_of_string s)).
Proof. reflexivity. Qed.

Lemma strip_empty (s : string) :
  strip s = "" <-> Feed.blank s = true.
Proof.
  rewrite strip_as_chars. unfold Feed.blank.
  rewrite <- strip_chars_blank. split.
  - intros H. apply (f_equal list_ascii_of_string) in H.
    now rewrite list_ascii_of_string_of_list_ascii in H.
  - now intros ->.
Qed.

Lemma strip_fixed (s : string) : strip (strip s) = strip s.
Proof.
  rewrite !strip_as_chars, list_ascii_of_string_of_list_ascii.
  now rewrite strip_chars_fixed.
Qed.

Lemma lookup_name_cases (r : Enrichment.row) :
  Enrichment.lookup_name r
  = if Feed.blank (Enrichment.name r)
    then strip (Enrichment.web_name r)
    else strip (Enrichment.name r).
Proof.
  unfold Enrichment.lookup_name, or_.
  destruct (Feed.blank (Enrichment.name r)) eqn:Hb.
  - apply strip_empty in Hb. now rewrite Hb.
  - destruct (strip (Enrichment.name r)) eqn:Hs; [|reflexivity].
    apply strip_empty in Hs. congruence.
Qed.

End StripFacts.

(** X14: the name a player is looked up and cached under has no white
    space left at either end, no-break space and next line included:
    stripping it again gives it back. *)
Theorem lookup_name_is_stripped (r : Enrichment.row) :
  Py.strip (Enrichment.lookup_name r) = Enrichment.lookup_name r.
Proof.
  rewrite StripFacts.lookup_name_cases.
  destruct (Feed.blank (Enrichment.name r)); apply StripFacts.strip_fixed.
Qed.

(** X15: the lookup uses the web name exactly when the full name is made
    of white space only, which for a name built by [fetch_fpl_data] means
    that first and second name are both missing or blank. *)
Theorem lookup_name_falls_back_on_blank_name :
  (forall r : Enrichment.row,
     Enrichment.lookup_name r
     = if Feed.blank (Enrichment.name r)
       then Py.strip (Enrichment.web_name r)
       else Py.strip (Enrichment.name r))
  /\ (forall first_name second_name : string,
        Feed.blank (Feed.full_name (Some first_name) (Some second_name))
        = Feed.blank first_name && Feed.blank second_name)
  /\ Feed.blank (Feed.full_name None None) = true.
Proof.
  split; [exact StripFacts.lookup_name_cases|]. split; [|reflexivity].
  intros a b. unfold Feed.blank, Feed.full_name.
  assert (Happ : forall x y,
            list_ascii_of_string (x ++ y)
            = (list_ascii_of_string x ++ list_ascii_of_string y)%list).
  { induction x as [|c x IH]; intros y; simpl; [reflexivity|].
    now rewrite IH. }
  rewrite !Happ, !forallb_app. reflexivity.
Qed.

(** ** More on the optimiser *)

Module SelectionFacts.

Import Enrichment LP Optimizer OptimizerFacts.

(** A selection holds no more rows of a kind than the frame does. *)
Lemma pick_count_le (x : assignment) (mask : row -> bool) (players : frame) :
  (List.length (filter mask (pick x players))
   <= List.length (filter mask players))%nat.
Proof.
  unfold pick, items. generalize 0%nat as k.
  induction players as [|r t IH]; intros k; simpl; [lia|].
  specialize (IH (S k)).
  destruct (x k); simpl; destruct (mask r); simpl; lia.
Qed.

Lemma pick_length_le (x : assignment) (players : frame) :
  (List.length (pick x players) <= List.length players)%nat.
Proof.
  unfold pick, items. generalize 0%nat as k.
  induction players as [|r t IH]; intros k; simpl; [lia|].
  specialize (IH (S k)). destruct (x k); simpl; lia.
Qed.

(** A status other than [Optimal] is always announced. *)
Lemma warning_printed (solve : problem -> solution) (players : frame) :
  sol_status (solve (build players)) <> LpStatusOptimal ->
  fst (optimize_squad solve players)
  = [ Solved (build players);
      Printed ("Warning: Solver status: "
               ++ LpStatus (sol_status (solve (build players)))) ].
Proof.
  intros Hst. unfold optimize_squad. cbn [fst].
  destruct (sol_status (solve (build players))); try reflexivity.
  congruence.
Qed.

End SelectionFacts.

(** X16: when the frame holds fewer players of some role than the squad
    structure requires, no selection is a valid squad: an exact back end
    does not report [Optimal], and the script prints its warning. *)
Theorem short_role_is_infeasible
    (solve : LP.problem -> LP.solution) (players : Optimizer.frame)
    (p : string) (n : Z) :
  LP.exact solve ->
  In (p, n) SQUAD_STRUCTURE ->
  (Optimizer.count_pos p players < n)%Z ->
  (forall x : LP.assignment,
     Optimizer.count_pos p (Optimizer.pick x players) <> n)
  /\ LP.sol_status (solve (Optimizer.build players)) <> LP.LpStatusOptimal
  /\ fst (Optimizer.optimize_squad solve players)
     = [ Optimizer.Solved (Optimizer.build players);
         Optimizer.Printed
           ("Warning: Solver status: "
            ++ LP.LpStatus
                 (LP.sol_status (solve (Optimizer.build players)))) ].
Proof.
  intros Hex Hin Hshort.
  assert (Hnever : forall x : LP.assignment,
            Optimizer.count_pos p (Optimizer.pick x players) <> n).
  { intros x Heq. unfold Optimizer.count_pos in *.
    pose proof (SelectionFacts.pick_count_le x
                  (fun r => Enrichment.pos r =? p) players).
    lia. }
  assert (Hst : LP.sol_status (solve (Optimizer.build players))
                <> LP.LpStatusOptimal).
  { intros Hst.
    destruct (solved_squad_valid solve Hex players Hst) as [_ [Hs _]].
    exact (Hnever _ (Hs p n Hin)). }
  split; [exact Hnever|]. split; [exact Hst|].
  now apply SelectionFacts.warning_printed.
Qed.

(** A defender and a midfielder, and nobody to keep goal. *)
Lemma short_role_is_infeasible_witness :
  (forall x : LP.assignment,
     Optimizer.count_pos "GK" (Optimizer.pick x Sample2.no_keeper) <> 2%Z)
  /\ LP.sol_status (LP.search (Optimizer.build Sample2.no_keeper))
     <> LP.LpStatusOptimal
  /\ fst (Optimizer.optimize_squad LP.search Sample2.no_keeper)
     = [ Optimizer.Solved (Optimizer.build Sample2.no_keeper);
         Optimizer.Printed
           ("Warning: Solver status: "
            ++ LP.LpStatus
                 (LP.sol_status
                    (LP.search (Optimizer.build Sample2.no_keeper)))) ].
Proof.
  apply (short_role_is_infeasible LP.search Sample2.no_keeper "GK" 2%Z).
  - exact LPFacts.search_exact.
  - simpl. tauto.
  - vm_compute. reflexivity.
Defined.

(** X17: whatever the back end answers, a returned squad is a selection
    of rows of the frame, in frame order: it is no longer than the frame,
    holds no row the frame lacks and no more players of a position than
    the frame has. *)
Theorem returned_squad_is_a_selection
    (solve : LP.problem -> LP.solution) (players squad : Optimizer.frame) :
  snd (Optimizer.optimize_squad solve players) = Optimizer.Return squad ->
  squad = Optimizer.pick (LP.rounded (solve (Optimizer.build players)))
            players
  /\ incl squad players
  /\ (List.length squad <= List.length players)%nat
  /\ (forall p, (Optimizer.count_pos p squad
                 <= Optimizer.count_pos p players)%Z).
Proof.
  intros Hret.
  destruct (OptimizerFacts.optimize_squad_result solve players) as [H|H];
    rewrite H in Hret; [discriminate|].
  injection Hret as <-. split; [reflexivity|]. split; [|split].
  - intros r. apply OptimizerFacts.pick_incl.
  - apply SelectionFacts.pick_length_le.
  - intros p. unfold Optimizer.count_pos. apply inj_le.
    apply SelectionFacts.pick_count_le.
Qed.

(** The sixteen-row sample, of which an exact back end takes every row. *)
Lemma returned_squad_is_a_selection_witness :
  Sample.sixteen
  = Optimizer.pick
      (LP.rounded (LP.search (Optimizer.build Sample.sixteen)))
      Sample.sixteen
  /\ incl Sample.sixteen Sample.sixteen
  /\ (List.length Sample.sixteen <= List.length Sample.sixteen)%nat
  /\ (forall p, (Optimizer.count_pos p Sample.sixteen
                 <= Optimizer.count_pos p Sample.sixteen)%Z).
Proof.
  apply (returned_squad_is_a_selection LP.search Sample.sixteen
           Sample.sixteen).
  exact (SolverFacts.sixteen_all_selected LP.search LPFacts.search_exact
           (SolverFacts.search_complete _ _ SolverFacts.sixteen_feasible)).
Defined.

(** ** More on the listing *)

Module ListingFacts.

Import Enrichment Presentation PresentationFacts Groups.

Lemma insert_in_front (r : row) (l : list row) :
  StronglySorted in_order (r :: l) -> insert r l = r :: l.
Proof.
  intros H. apply StronglySorted_inv in H. destruct H as [_ Hall].
  destruct l as [|h t]; [reflexivity|]. simpl.
  apply Forall_inv in Hall. unfold in_order in Hall. now rewrite Hall.
Qed.

(** Sorting rows that are in order already returns them as they are. *)
Lemma sort_values_of_sorted (l : list row) :
  StronglySorted in_order l -> sort_values l = l.
Proof.
  induction l as [|r t IH]; intros H; [reflexivity|].
  simpl. rewrite IH; [now apply insert_in_front|].
  now apply StronglySorted_inv in H.
Qed.

(** Rows ranked from [k] on hold no position of a lower rank. *)
Lemma no_earlier_role (code : string) (k : nat) (l : list row) :
  Forall (fun y => (k <= Spec.role_rank (pos y))%nat) l ->
  (Spec.role_rank code < k)%nat ->
  with_pos code l = [].
Proof.
  intros Hall Hlt. unfold with_pos.
  induction Hall as [|y t Hy _ IH]; simpl; [reflexivity|].
  destruct (pos y =? code) eqn:E; [|exact IH].
  apply String.eqb_eq in E. subst code. lia.
Qed.

Lemma rank_cases (p : string) :
  (p = "GK" /\ Spec.role_rank p = 0%nat)
  \/ (p = "DEF" /\ Spec.role_rank p = 1%nat)
  \/ (p = "MID" /\ Spec.role_rank p = 2%nat)
  \/ (p = "FWD" /\ Spec.role_rank p = 3%nat)
  \/ (Optimizer.is_role p = false /\ Spec.role_rank p = 4%nat
      /\ p <> "GK" /\ p <> "DEF" /\ p <> "MID" /\ p <> "FWD").
Proof.
  unfold Spec.role_rank.
  destruct (p =? "GK") eqn:E1;
    [apply String.eqb_eq in E1; subst p; now left|].
  destruct (p =? "DEF") eqn:E2;
    [apply String.eqb_eq in E2; subst p; right; now left|].
  destruct (p =? "MID") eqn:E3;
    [apply String.eqb_eq in E3; subst p; right; right; now left|].
  destruct (p =? "FWD") eqn:E4;
    [apply String.eqb_eq in E4; subst p; right; right; right; now left|].
  right; right; right; right.
  rewrite OptimizerFacts.is_role_unfold.
  rewrite (String.eqb_sym "GK"), (String.eqb_sym "DEF"),
    (String.eqb_sym "MID"), (String.eqb_sym "FWD"), E1, E2, E3, E4.
  apply String.eqb_neq in E1, E2, E3, E4. now repeat split.
Qed.

End ListingFacts.

Module GroupFacts.

Import Enrichment Presentation Groups ListingFacts.

Lemma with_pos_cons (code : string) (h : row) (t : list row) :
  with_pos code (h :: t)
  = if pos h =? code then h :: with_pos code t else with_pos code t.
Proof. reflexivity. Qed.

Lemma without_role_cons (h : row) (t : list row) :
  without_role (h :: t)
  = if Optimizer.is_role (pos h) then without_role t
    else h :: without_role t.
Proof. unfold without_role. simpl. now destruct (Optimizer.is_role (pos h)). Qed.

(** The five tests a position can pass, with its rank. *)
Lemma role_tests (p : string) :
  exists k,
    Spec.role_rank p = k
    /\ (p =? "GK") = (k =? 0)%nat
    /\ (p =? "DEF") = (k =? 1)%nat
    /\ (p =? "MID") = (k =? 2)%nat
    /\ (p =? "FWD") = (k =? 3)%nat
    /\ Optimizer.is_role p = negb (k =? 4)%nat
    /\ (k <= 4)%nat.
Proof.
  destruct (rank_cases p)
    as [[-> Hk]|[[-> Hk]|[[-> Hk]|[[-> Hk]|[Hp [Hk [N1 [N2 [N3 N4]]]]]]]]];
    eexists; (split; [exact Hk|]); try (now repeat split; try lia).
  apply String.eqb_neq in N1, N2, N3, N4.
  rewrite N1, N2, N3, N4, Hp. repeat split. lia.
Qed.

(** Rows in listing order fall into five consecutive groups. *)
Lemma sorted_groups (l : list row) :
  StronglySorted Spec.listed_before l ->
  l = with_pos "GK" l ++ with_pos "DEF" l ++ with_pos "MID" l
      ++ with_pos "FWD" l ++ without_role l.
Proof.
  induction 1 as [|h t Hs IH Hall]; [reflexivity|].
  destruct (role_tests (pos h)) as [k [Hk [E1 [E2 [E3 [E4 [E5 Hle]]]]]]].
  assert (Hrank : Forall (fun y => (k <= Spec.role_rank (pos y))%nat) t).
  { rewrite <- Hk. eapply Forall_impl; [|exact Hall].
    intros y [Hy _]. exact Hy. }
  rewrite !with_pos_cons, without_role_cons, E1, E2, E3, E4, E5.
  assert (Hcases : (k = 0 \/ k = 1 \/ k = 2 \/ k = 3 \/ k = 4)%nat) by lia.
  destruct Hcases as [ -> | [ -> | [ -> | [ -> | -> ] ] ] ];
    cbn [Nat.eqb negb];
    rewrite ?(no_earlier_role "GK" _ t Hrank) by (vm_compute; lia);
    rewrite ?(no_earlier_role "DEF" _ t Hrank) by (vm_compute; lia);
    rewrite ?(no_earlier_role "MID" _ t Hrank) by (vm_compute; lia);
    rewrite ?(no_earlier_role "FWD" _ t Hrank) by (vm_compute; lia);
    cbn [app]; f_equal;
    rewrite IH at 1;
    rewrite ?(no_earlier_role "GK" _ t Hrank) by (vm_compute; lia);
    rewrite ?(no_earlier_role "DEF" _ t Hrank) by (vm_compute; lia);
    rewrite ?(no_earlier_role "MID" _ t Hrank) by (vm_compute; lia);
    rewrite ?(no_earlier_role "FWD" _ t Hrank) by (vm_compute; lia);
    reflexivity.
Qed.

End GroupFacts.

Module PipelineFacts.

Import Enrichment Presentation Groups.

Lemma filter_length_perm {A : Type} (f : A -> bool) (l l' : list A) :
  Permutation l l' ->
  List.length (filter f l) = List.length (filter f l').
Proof.
  induction 1 as [|a l l' _ IH|a b l|l l' l'' _ IH1 _ IH2]; simpl.
  - reflexivity.
  - destruct (f a); simpl; now rewrite IH.
  - destruct (f a), (f b); reflexivity.
  - now rewrite IH1.
Qed.

Lemma listing_sorted (squad : list row) :
  StronglySorted Spec.listed_before (listing squad).
Proof.
  apply (PresentationFacts.StronglySorted_weaken in_order).
  - exact PresentationFacts.before_listed.
  - apply PresentationFacts.sort_values_sorted.
Qed.

(** A group of the listing holds as many rows as the squad has of that
    position. *)
Lemma group_size (code : string) (squad : list row) :
  Z.of_nat (List.length (with_pos code (listing squad)))
  = Optimizer.count_pos code squad.
Proof.
  unfold with_pos, Optimizer.count_pos. f_equal. symmetry.
  apply filter_length_perm, PresentationFacts.sort_values_perm.
Qed.

Lemma with_pos_all (code : string) (l : list row) :
  Forall (fun r => pos r = code) (with_pos code l).
Proof.
  apply Forall_forall. intros r Hr. apply filter_In in Hr.
  now apply String.eqb_eq.
Qed.

Lemma without_role_all (l : list row) :
  Forall (fun r => Optimizer.is_role (pos r) = false) (without_role l).
Proof.
  apply Forall_forall. intros r Hr. apply filter_In in Hr.
  now apply negb_true_iff.
Qed.

End PipelineFacts.

(** X18: listing a listing again changes nothing, whatever the points
    hold (numbers, infinities, NaN), and the listing has as many rows as
    the squad. *)
Theorem listing_is_idempotent (squad : list Enrichment.row) :
  Presentation.listing (Presentation.listing squad)
  = Presentation.listing squad
  /\ List.length (Presentation.listing squad) = List.length squad.
Proof.
  split.
  - apply ListingFacts.sort_values_of_sorted.
    apply PresentationFacts.sort_values_sorted.
  - symmetry. apply Permutation_length.
    apply PresentationFacts.sort_values_perm.
Qed.

(** X19: the listing is the squad's goalkeepers, then its defenders, its
    midfielders and its forwards, then the rows of any other position;
    each group holds exactly as many rows as the squad has of it. *)
Theorem listing_is_five_groups (squad : list Enrichment.row) :
  let l := Presentation.listing squad in
  l = Groups.with_pos "GK" l ++ Groups.with_pos "DEF" l
      ++ Groups.with_pos "MID" l ++ Groups.with_pos "FWD" l
      ++ Groups.without_role l
  /\ (forall code,
        Z.of_nat (List.length (Groups.with_pos code l))
        = Optimizer.count_pos code squad).
Proof.
  intros l. subst l. split.
  - apply GroupFacts.sorted_groups, PipelineFacts.listing_sorted.
  - intros code. apply PipelineFacts.group_size.
Qed.

(** X20: optimising and then listing, in the solved case: the printed
    squad opens with exactly 2 goalkeepers, then 5 defenders, 5
    midfielders and 3 forwards, and ends with the selected rows that hold
    none of the four roles. *)
Theorem solved_squad_listing_layout
    (solve : LP.problem -> LP.solution) (players : Optimizer.frame) :
  LP.exact solve ->
  LP.sol_status (solve (Optimizer.build players)) = LP.LpStatusOptimal ->
  exists squad gk def mid fwd others,
    Optimizer.optimize_squad solve players
    = ([Optimizer.Solved (Optimizer.build players)], Optimizer.Return squad)
    /\ Presentation.listing squad = gk ++ def ++ mid ++ fwd ++ others
    /\ List.length gk = 2%nat
    /\ Forall (fun r => Enrichment.pos r = "GK") gk
    /\ List.length def = 5%nat
    /\ Forall (fun r => Enrichment.pos r = "DEF") def
    /\ List.length mid = 5%nat
    /\ Forall (fun r => Enrichment.pos r = "MID") mid
    /\ List.length fwd = 3%nat
    /\ Forall (fun r => Enrichment.pos r = "FWD") fwd
    /\ Forall (fun r => Optimizer.is_role (Enrichment.pos r) = false) others.
Proof.
  intros Hex Hst.
  set (squad := Optimizer.pick
                  (LP.rounded (solve (Optimizer.build players))) players).
  destruct (solved_squad_valid solve Hex players Hst) as [_ [Hs _]].
  fold squad in Hs.
  assert (Hsize : forall code n,
            In (code, n) SQUAD_STRUCTURE ->
            List.length (Groups.with_pos code (Presentation.listing squad))
            = Z.to_nat n).
  { intros code n Hin. rewrite <- (Hs code n Hin).
    rewrite <- PipelineFacts.group_size. now rewrite Nat2Z.id. }
  exists squad,
    (Groups.with_pos "GK" (Presentation.listing squad)),
    (Groups.with_pos "DEF" (Presentation.listing squad)),
    (Groups.with_pos "MID" (Presentation.listing squad)),
    (Groups.with_pos "FWD" (Presentation.listing squad)),
    (Groups.without_role (Presentation.listing squad)).
  split; [exact (OptimizerFacts.optimize_squad_solved solve players Hex Hst)|].
  split; [apply GroupFacts.sorted_groups, PipelineFacts.listing_sorted|].
  repeat split;
    try apply PipelineFacts.with_pos_all;
    try apply PipelineFacts.without_role_all.
  - apply (Hsize "GK" 2%Z). simpl. tauto.
  - apply (Hsize "DEF" 5%Z). simpl. tauto.
  - apply (Hsize "MID" 5%Z). simpl. tauto.
  - apply (Hsize "FWD" 3%Z). simpl. tauto.
Qed.

(** The sixteen-row sample: fifteen players by role, then the manager. *)
Lemma solved_squad_listing_layout_witness :
  exists squad gk def mid fwd others,
    Optimizer.optimize_squad LP.search Sample.sixteen
    = ([Optimizer.Solved (Optimizer.build Sample.sixteen)],
       Optimizer.Return squad)
    /\ Presentation.listing squad = gk ++ def ++ mid ++ fwd ++ others
    /\ List.length gk = 2%nat
    /\ Forall (fun r => Enrichment.pos r = "GK") gk
    /\ List.length def = 5%nat
    /\ Forall (fun r => Enrichment.pos r = "DEF") def
    /\ List.length mid = 5%nat
    /\ Forall (fun r => Enrichment.pos r = "MID") mid
    /\ List.length fwd = 3%nat
    /\ Forall (fun r => Enrichment.pos r = "FWD") fwd
    /\ Forall (fun r => Optimizer.is_role (Enrichment.pos r) = false) others.
Proof.
  apply (solved_squad_listing_layout LP.search Sample.sixteen).
  - exact LPFacts.search_exact.
  - exact (SolverFacts.search_complete _ _ SolverFacts.sixteen_feasible).
Defined.
